(** * A relay for chat completions: the model of [app.py]

    The development embeds the request handlers of [app.py] and the
    streaming generator they hand to the serving layer, and states the
    properties of the relay on that embedding.

    Conventions.
    - A Python [str] is the list of its code points; [bytes] is a list of
      bytes.  [bytes.decode('utf-8')] is the strict decoder, which raises
      [UnicodeDecodeError] on an ill-formed sequence.
    - A Python value that comes out of [json.loads] or goes into a request
      body is a [pyval].
    - The dictionaries the handler builds ([payload], [filtered_payload],
      [headers]) are finite maps.
    - The upstream provider is the environment: it answers an outbound call
      with a response or with a [RequestException]. *)

From Stdlib Require Import ZArith NArith List Bool.
From Stdlib.Strings Require Import String Ascii Byte.
From stdpp Require Import base option list gmap pretty.

Set Warnings "-register-all,-clear-no-such-hyp".

Local Open Scope N_scope.

(** ** Strings and bytes *)

Definition str : Type := list N.
Definition bytes : Type := list byte.

(** An ASCII literal of the source, as a [str] and as [bytes]. *)
Definition lit (s : string) : str :=
  map (fun a => N_of_ascii a) (list_ascii_of_string s).

Definition blit (s : string) : bytes := list_byte_of_string s.

(** [s.startswith(p)] *)
Fixpoint startswith (s p : str) {struct p} : bool :=
  match p, s with
  | [], _ => true
  | c :: p', d :: s' => (c =? d) && startswith s' p'
  | _ :: _, [] => false
  end.

(** [b.startswith(p)] on bytes *)
Fixpoint bstartswith (b p : bytes) {struct p} : bool :=
  match p, b with
  | [], _ => true
  | c :: p', d :: b' => (Byte.to_N c =? Byte.to_N d) && bstartswith b' p'
  | _ :: _, [] => false
  end.

(** [s[n:]] and [s[:n]] for a non-negative literal [n] *)
Definition slice_from (n : nat) (s : str) : str := drop n s.
Definition slice_to (n : nat) (s : str) : str := take n s.

(** ** [bytes.decode('utf-8')]

    The strict UTF-8 decoder: shortest form only, no surrogates, nothing
    above U+10FFFF.  [None] stands for [UnicodeDecodeError]. *)

Definition is_cont (b : N) : bool := (0x80 <=? b) && (b <=? 0xBF).

Definition low6 (b : N) : N := N.land b 0x3F.

Definition second_ok3 (b0 b1 : N) : bool :=
  if b0 =? 0xE0 then (0xA0 <=? b1) && (b1 <=? 0xBF)
  else if b0 =? 0xED then (0x80 <=? b1) && (b1 <=? 0x9F)
  else is_cont b1.

Definition second_ok4 (b0 b1 : N) : bool :=
  if b0 =? 0xF0 then (0x90 <=? b1) && (b1 <=? 0xBF)
  else if b0 =? 0xF4 then (0x80 <=? b1) && (b1 <=? 0x8F)
  else is_cont b1.

Fixpoint utf8_decode_N (bs : list N) : option str :=
  match bs with
  | [] => Some []
  | b0 :: t0 =>
    if b0 <? 0x80 then cons b0 <$> utf8_decode_N t0
    else if (0xC2 <=? b0) && (b0 <=? 0xDF) then
      match t0 with
      | b1 :: t1 =>
        if is_cont b1
        then cons (N.lor (N.shiftl (N.land b0 0x1F) 6) (low6 b1))
               <$> utf8_decode_N t1
        else None
      | _ => None
      end
    else if (0xE0 <=? b0) && (b0 <=? 0xEF) then
      match t0 with
      | b1 :: b2 :: t2 =>
        if second_ok3 b0 b1 && is_cont b2
        then cons (N.lor (N.shiftl (N.land b0 0x0F) 12)
                     (N.lor (N.shiftl (low6 b1) 6) (low6 b2)))
               <$> utf8_decode_N t2
        else None
      | _ => None
      end
    else if (0xF0 <=? b0) && (b0 <=? 0xF4) then
      match t0 with
      | b1 :: b2 :: b3 :: t3 =>
        if second_ok4 b0 b1 && is_cont b2 && is_cont b3
        then cons (N.lor (N.shiftl (N.land b0 0x07) 18)
                     (N.lor (N.shiftl (low6 b1) 12)
                        (N.lor (N.shiftl (low6 b2) 6) (low6 b3))))
               <$> utf8_decode_N t3
        else None
      | _ => None
      end
    else None
  end.

Definition decode_utf8 (b : bytes) : option str :=
  utf8_decode_N (map Byte.to_N b).

(** ** [json.dumps] of a string and of the one-key error object

    [json.dumps] runs with [ensure_ascii=True]: every character outside
    [' '..'~'], and the quote and the backslash, is escaped. *)

Definition hex_digit (n : N) : N :=
  if n <? 10 then 48 + n else 87 + n.

(** ['{0:04x}'.format(n)] for [n < 0x10000] *)
Definition hex4 (n : N) : str :=
  [ hex_digit (N.land (N.shiftr n 12) 0xF);
    hex_digit (N.land (N.shiftr n 8) 0xF);
    hex_digit (N.land (N.shiftr n 4) 0xF);
    hex_digit (N.land n 0xF) ].

Definition QUOTE : N := 34.
Definition BACKSLASH : N := 92.

Definition u_escape (n : N) : str := [BACKSLASH; 117] ++ hex4 n.

Definition escape_char (c : N) : str :=
  if c =? QUOTE then [BACKSLASH; QUOTE]
  else if c =? BACKSLASH then [BACKSLASH; BACKSLASH]
  else if (32 <=? c) && (c <=? 126) then [c]
  else if c =? 10 then [BACKSLASH; 110]
  else if c =? 13 then [BACKSLASH; 114]
  else if c =? 9 then [BACKSLASH; 116]
  else if c =? 12 then [BACKSLASH; 102]
  else if c =? 8 then [BACKSLASH; 98]
  else if c <? 0x10000 then u_escape c
  else
    let n := c - 0x10000 in
    let s1 := N.lor 0xD800 (N.land (N.shiftr n 10) 0x3FF) in
    let s2 := N.lor 0xDC00 (N.land n 0x3FF) in
    u_escape s1 ++ u_escape s2.

Definition json_dumps_str (s : str) : str :=
  [QUOTE] ++ concat (map escape_char s) ++ [QUOTE].

(** [json.dumps({'error': msg})] *)
Definition json_dumps_error (msg : str) : str :=
  lit "{" ++ json_dumps_str (lit "error") ++ lit ": "
    ++ json_dumps_str msg ++ lit "}".

(** ** Python values *)

(** A [float] is carried by its IEEE-754 binary64 bit pattern; the relay
    never computes on it. *)
Inductive pyfloat : Type := Float64 (bits : N).

Inductive pyval : Type :=
| PNone
| PBool (b : bool)
| PInt (z : Z)
| PFloat (f : pyfloat)
| PStr (s : str)
| PList (l : list pyval)
| PDict (d : list (str * pyval)).

(** [d.get(key, default)] on a dictionary value in insertion order *)
Fixpoint dict_get (d : list (str * pyval)) (key : str) (default : pyval) : pyval :=
  match d with
  | [] => default
  | (k, v) :: d' => if decide (k = key) then v else dict_get d' key default
  end.

(** ** The upstream response *)

(** What [response.iter_lines()] does, line after line: it hands out a line,
    stops, raises a [RequestException] (connection reset, read timeout:
    requests wraps the transport's errors) whose [str] is [msg], or raises
    another exception. *)
Inductive upstream : Type :=
| UEnd
| ULine (chunk : bytes) (rest : upstream)
| UFail (msg : str)
| URaise (name : str).

(** What [response.json()] does: it returns the decoded body, raises
    [JSONDecodeError] with a message, or raises another exception
    ([RecursionError] for a body nested too deep). *)
Inductive json_outcome : Type :=
| JsonValue (v : pyval)
| JsonError (msg : str)
| JsonRaises (name : str).

(** A response object as the handlers observe it: [status_code], [reason],
    [text], what [json()] does and the lines of a streamed body. *)
Record Response : Type := mkResponse {
  status_code : Z;
  reason : str;
  text : str;
  json_result : json_outcome;
  iter_lines : upstream
}.

(** The exceptions that occur.  [JSONDecodeError] is the one
    [response.json()] raises.  [RequestException e] has [str(e) = msg] and
    [e.response = response]. *)
Inductive exception : Type :=
| RequestException (msg : str) (response : option Response)
| JSONDecodeError (msg : str)
| HTTPException (status : Z) (detail : str)
| UnicodeDecodeError
| AttributeError
| OtherError (name : str).

(** ** [stream_generator] *)

Definition NL : N := 10.

Definition DATA_PREFIX : str := Eval cbv in lit "data: ".

Definition INVALID_CHUNK : str := Eval cbv in lit "Invalid chunk format".

(** [f"data: {payload}\n\n"] *)
Definition sse_data (payload : str) : str :=
  DATA_PREFIX ++ payload ++ [NL; NL].

(** The frame of an asynchronous generator: not yet started, suspended at a
    [yield] of the loop (lines 35 and 37) with the rest of the upstream
    still to read, suspended at the [yield] of the handler (line 39), or
    finished. *)
Inductive gen_state : Type :=
| GenCreated (lines : upstream)
| GenSuspendedLoop (lines : upstream)
| GenSuspendedHandler
| GenClosed.

Record generator : Type := mkGenerator {
  gen_stream : bool;
  gen_frame : gen_state
}.

(** [stream_generator(response, stream)]: calling it builds the generator
    object and runs nothing. *)
Definition stream_generator (response : Response) (stream : bool) : generator :=
  mkGenerator stream (GenCreated (iter_lines response)).

(** What a resumption of the generator gives its consumer. *)
Inductive resumed : Type :=
| Yielded (event : str)
| StopAsyncIteration
| Raised (e : exception).

(** The [finally] block; [closes] counts the calls of [response.close()]. *)
Definition finally_block (stream : bool) (closes : nat) : nat :=
  if stream then S closes else closes.

(** The body of the [for] loop on one line: nothing for an empty chunk,
    else decode and reframe. *)
Inductive line_result : Type :=
| LineSkip
| LineYield (event : str)
| LineRaise (e : exception).

Definition relay_line (chunk : bytes) : line_result :=
  match chunk with
  | [] => LineSkip
  | _ :: _ =>
    match decode_utf8 chunk with
    | None => LineRaise UnicodeDecodeError
    | Some decoded_chunk =>
      if startswith decoded_chunk DATA_PREFIX
      then LineYield (sse_data (slice_from 6 decoded_chunk))
      else LineYield (sse_data (json_dumps_error INVALID_CHUNK))
    end
  end.

(** The [try] statement from the point where the loop asks the upstream for
    its next line, up to the next [yield] or the end of the generator. *)
Fixpoint run_loop (stream : bool) (lines : upstream) (closes : nat)
  : resumed * gen_state * nat :=
  match lines with
  | UEnd => (StopAsyncIteration, GenClosed, finally_block stream closes)
  | UFail msg =>
    (Yielded (sse_data (json_dumps_error msg)), GenSuspendedHandler, closes)
  | URaise name =>
    (Raised (OtherError name), GenClosed, finally_block stream closes)
  | ULine chunk rest =>
    match relay_line chunk with
    | LineSkip => run_loop stream rest closes
    | LineYield event => (Yielded event, GenSuspendedLoop rest, closes)
    | LineRaise e => (Raised e, GenClosed, finally_block stream closes)
    end
  end.

(** [await gen.__anext__()] *)
Definition anext (g : generator) (closes : nat) : resumed * generator * nat :=
  let stream := gen_stream g in
  match gen_frame g with
  | GenCreated lines | GenSuspendedLoop lines =>
    let '(r, frame, closes') := run_loop stream lines closes in
    (r, mkGenerator stream frame, closes')
  | GenSuspendedHandler =>
    (StopAsyncIteration, mkGenerator stream GenClosed,
     finally_block stream closes)
  | GenClosed => (StopAsyncIteration, g, closes)
  end.

(** [await gen.aclose()]: [GeneratorExit] is raised at the [yield] where the
    generator is suspended; it is no [RequestException], so only the
    [finally] block runs.  A generator that has not started is marked
    finished and none of its code runs. *)
Definition aclose (g : generator) (closes : nat) : generator * nat :=
  let stream := gen_stream g in
  match gen_frame g with
  | GenCreated _ => (mkGenerator stream GenClosed, closes)
  | GenSuspendedLoop _ | GenSuspendedHandler =>
    (mkGenerator stream GenClosed, finally_block stream closes)
  | GenClosed => (g, closes)
  end.

(** The consumer of the stream: it asks for the next event or cancels. *)
Inductive action : Type := Next | Cancel.

Definition step (a : action) (g : generator) (closes : nat)
  : list resumed * generator * nat :=
  match a with
  | Next => let '(r, g', c') := anext g closes in ([r], g', c')
  | Cancel => let '(g', c') := aclose g closes in ([], g', c')
  end.

Fixpoint run (acts : list action) (g : generator) (closes : nat)
  : list resumed * generator * nat :=
  match acts with
  | [] => ([], g, closes)
  | a :: acts' =>
    let '(out, g', c') := step a g closes in
    let '(out', g'', c'') := run acts' g' c' in
    (out ++ out', g'', c'')
  end.

(** The serving layer iterates the generator ([async for chunk in ...]) until
    it stops or raises; [fuel] bounds the number of resumptions. *)
Fixpoint drain (fuel : nat) (g : generator) (closes : nat)
  : list str * option resumed * generator * nat :=
  match fuel with
  | O => ([], None, g, closes)
  | S fuel' =>
    match anext g closes with
    | (Yielded event, g', c') =>
      let '(events, r, g'', c'') := drain fuel' g' c' in
      (event :: events, r, g'', c'')
    | (r, g', c') => ([], Some r, g', c')
    end
  end.

(** The upstream that hands out [chunks] and then behaves as [tail]. *)
Definition script (chunks : list bytes) (tail : upstream) : upstream :=
  foldr ULine tail chunks.

(** ** The inbound request *)

(** [str.lower()] on an ASCII string (header names) *)
Definition ascii_lower (c : N) : N :=
  if (65 <=? c) && (c <=? 90) then c + 32 else c.

Definition lower (s : str) : str := map ascii_lower s.

(** The request as the handlers use it: the raw header list, whose names
    the server has put in lower case. *)
Record Request : Type := mkRequest {
  headers : list (str * str)
}.

(** [request.headers.get(key, default)]: the first header whose name is the
    lower-cased key. *)
Fixpoint headers_get (hs : list (str * str)) (key default : str) : str :=
  match hs with
  | [] => default
  | (k, v) :: hs' =>
    if decide (k = lower key) then v else headers_get hs' key default
  end.

(** [ChatRequest].  [messages] and [model] are required.  For every other
    field the outer [option] records whether the request set it (pydantic's
    set of set fields); a field typed [T | None] that was set holds [None]
    or a value. *)
Record ChatRequest : Type := mkChatRequest {
  messages : list (list (str * pyval));
  model : str;
  max_tokens : option (option Z);
  temperature : option (option pyfloat);
  top_p : option (option pyfloat);
  stream : option bool;
  presence_penalty : option (option pyfloat);
  frequency_penalty : option (option pyfloat)
}.

(** [req.stream]: the value that was set, or the default [False]. *)
Definition req_stream (req : ChatRequest) : bool := default false (stream req).

Definition K_messages : str := Eval cbv in lit "messages".
Definition K_model : str := Eval cbv in lit "model".
Definition K_max_tokens : str := Eval cbv in lit "max_tokens".
Definition K_temperature : str := Eval cbv in lit "temperature".
Definition K_top_p : str := Eval cbv in lit "top_p".
Definition K_stream : str := Eval cbv in lit "stream".
Definition K_presence_penalty : str := Eval cbv in lit "presence_penalty".
Definition K_frequency_penalty : str := Eval cbv in lit "frequency_penalty".

Definition of_nullable {A} (conv : A -> pyval) (v : option A) : pyval :=
  match v with
  | None => PNone
  | Some a => conv a
  end.

(** One entry of [req.dict(exclude_unset=True)]: present when the field was
    set. *)
Definition put_if_set {A} (key : str) (conv : A -> pyval) (field : option A)
    (d : gmap str pyval) : gmap str pyval :=
  match field with
  | Some v => <[key := conv v]> d
  | None => d
  end.

(** The names of the fields the request set. *)
Definition name_if_set {A} (key : str) (field : option A) : gset str :=
  match field with
  | Some _ => {[ key ]}
  | None => ∅
  end.

Definition fields_set (req : ChatRequest) : gset str :=
  {[ K_messages ]} ∪ {[ K_model ]}
  ∪ name_if_set K_max_tokens (max_tokens req)
  ∪ name_if_set K_temperature (temperature req)
  ∪ name_if_set K_top_p (top_p req)
  ∪ name_if_set K_stream (stream req)
  ∪ name_if_set K_presence_penalty (presence_penalty req)
  ∪ name_if_set K_frequency_penalty (frequency_penalty req).

(** [req.dict(exclude_unset=True)] *)
Definition dict_exclude_unset (req : ChatRequest) : gmap str pyval :=
  put_if_set K_frequency_penalty (of_nullable PFloat) (frequency_penalty req)
  (put_if_set K_presence_penalty (of_nullable PFloat) (presence_penalty req)
  (put_if_set K_stream PBool (stream req)
  (put_if_set K_top_p (of_nullable PFloat) (top_p req)
  (put_if_set K_temperature (of_nullable PFloat) (temperature req)
  (put_if_set K_max_tokens (of_nullable PInt) (max_tokens req)
  (<[K_model := PStr (model req)]>
  (<[K_messages := PList (map PDict (messages req))]> ∅))))))).

(** The allow-list of line 62. *)
Definition ALLOWED : list str :=
  [K_messages; K_model; K_max_tokens; K_temperature; K_top_p; K_stream].

(** [{k: v for k, v in payload.items() if k in [...]}] *)
Definition allow_list_filter (payload : gmap str pyval) : gmap str pyval :=
  filter (fun kv => kv.1 ∈ ALLOWED) payload.

Definition filtered_payload (req : ChatRequest) : gmap str pyval :=
  allow_list_filter (dict_exclude_unset req).

(** ** Validation of the body at the boundary

    The serving layer builds the [ChatRequest] from the JSON body before it
    calls the handler, and answers 422 itself when that fails.  How a value
    is converted to the type of a field is the validation library's
    business and is a parameter here; which fields are required, which may
    be null and which are optional is read off the class. *)

Record Coercions : Type := mkCoercions {
  to_int : pyval -> option Z;
  to_float : pyval -> option pyfloat;
  to_bool : pyval -> option bool;
  to_str : pyval -> option str;
  to_dict : pyval -> option (list (str * pyval));
  to_list : pyval -> option (list pyval)
}.

(** The coercions that convert nothing. *)
Definition exact_types : Coercions :=
  {| to_int := fun v => match v with PInt z => Some z | _ => None end;
     to_float := fun v => match v with PFloat f => Some f | _ => None end;
     to_bool := fun v => match v with PBool b => Some b | _ => None end;
     to_str := fun v => match v with PStr s => Some s | _ => None end;
     to_dict := fun v => match v with PDict d => Some d | _ => None end;
     to_list := fun v => match v with PList l => Some l | _ => None end |}.

(** [d[key]] when it is there *)
Fixpoint dict_lookup (d : list (str * pyval)) (key : str) : option pyval :=
  match d with
  | [] => None
  | (k, v) :: d' => if decide (k = key) then Some v else dict_lookup d' key
  end.

Section Validation.
Variable V : Coercions.

(** A field declared with [Field(...)]: it must be there. *)
Definition required {A} (conv : pyval -> option A)
    (d : list (str * pyval)) (key : str) : option A :=
  v ← dict_lookup d key; conv v.

(** A field with a default: unset when the key is missing. *)
Definition optional {A} (conv : pyval -> option A)
    (d : list (str * pyval)) (key : str) : option (option A) :=
  match dict_lookup d key with
  | None => Some None
  | Some v => Some <$> conv v
  end.

(** A type [T | None]: null is a value of it. *)
Definition nullable {A} (conv : pyval -> option A) (v : pyval)
  : option (option A) :=
  match v with
  | PNone => Some None
  | _ => Some <$> conv v
  end.

(** [list[dict]] *)
Definition to_dict_list (v : pyval) : option (list (list (str * pyval))) :=
  l ← to_list V v; mapM (to_dict V) l.

Definition validate (body : pyval) : option ChatRequest :=
  match body with
  | PDict d =>
    f_messages ← required to_dict_list d K_messages;
    f_model ← required (to_str V) d K_model;
    f_max_tokens ← optional (nullable (to_int V)) d K_max_tokens;
    f_temperature ← optional (nullable (to_float V)) d K_temperature;
    f_top_p ← optional (nullable (to_float V)) d K_top_p;
    f_stream ← optional (to_bool V) d K_stream;
    f_presence ← optional (nullable (to_float V)) d K_presence_penalty;
    f_frequency ← optional (nullable (to_float V)) d K_frequency_penalty;
    Some (mkChatRequest f_messages f_model f_max_tokens f_temperature
            f_top_p f_stream f_presence f_frequency)
  | _ => None
  end.
End Validation.

(** ** Outbound calls and the handlers' monad *)

Inductive http_method : Type := GET | POST.

(** One call of [requests.post] or [requests.get]. *)
Record OutboundCall : Type := mkCall {
  call_method : http_method;
  call_url : str;
  call_headers : gmap str str;
  call_json : option (gmap str pyval);
  call_stream : bool;
  call_timeout : Z
}.

(** What the call does: it returns a response, or raises a
    [RequestException] (connection refused, timeout). *)
Inductive call_result : Type :=
| Responds (r : Response)
| Fails (msg : str) (response : option Response).

(** A handler runs against the log of the outbound calls made so far and
    returns a value or raises. *)
Definition IO (A : Type) : Type :=
  list OutboundCall -> (exception + A) * list OutboundCall.

Definition ret {A} (a : A) : IO A := fun log => (inr a, log).

Definition raise {A} (e : exception) : IO A := fun log => (inl e, log).

Definition bind {A B} (m : IO A) (k : A -> IO B) : IO B :=
  fun log =>
    match m log with
    | (inr a, log') => k a log'
    | (inl e, log') => (inl e, log')
    end.

(** [try: body  except: handler]; a handler that does not match the
    exception raises it again. *)
Definition try_except {A} (body : IO A) (handler : exception -> IO A) : IO A :=
  fun log =>
    match body log with
    | (inl e, log') => handler e log'
    | (inr a, log') => (inr a, log')
    end.

#[global] Instance IO_ret : MRet IO := @ret.
#[global] Instance IO_bind : MBind IO := fun A B k m => bind m k.

(** The exceptions [except RequestException] catches: the
    [JSONDecodeError] of [response.json()] is requests' own class, which
    derives from [RequestException] as well as from [json.JSONDecodeError]. *)
Definition is_RequestException (e : exception) : bool :=
  match e with
  | RequestException _ _ | JSONDecodeError _ => true
  | _ => false
  end.

Definition is_JSONDecodeError (e : exception) : bool :=
  match e with
  | JSONDecodeError _ => true
  | _ => false
  end.

(** [e.response] of a caught [RequestException] *)
Definition exc_response (e : exception) : option Response :=
  match e with
  | RequestException _ response => response
  | _ => None
  end.

(** [str(e)] of a caught [RequestException] *)
Definition exc_str (e : exception) : str :=
  match e with
  | RequestException msg _ | JSONDecodeError msg => msg
  | HTTPException _ detail => detail
  | OtherError name => name
  | UnicodeDecodeError | AttributeError => []
  end.

(** The statuses for which [raise_for_status] raises. *)
Definition is_error_status (status : Z) : bool :=
  ((400 <=? status) && (status <? 600))%Z.

(** *** The calls into requests *)

Section Handlers.
(** The upstream provider. *)
Variable provider : OutboundCall -> call_result.

(** [str(v)] of a value that is not a string, as an f-string formats it. *)
Variable py_str : pyval -> str.

Definition requests_call (call : OutboundCall) : IO Response :=
  fun log =>
    (match provider call with
     | Responds r => inr r
     | Fails msg response => inl (RequestException msg response)
     end, log ++ [call]).

(** [response.raise_for_status()]: an [HTTPError] that carries the
    response, for a status from 400 to 599. *)
Definition http_error_msg (url : str) (r : Response) : str :=
  lit (pretty (status_code r))
    ++ (if (status_code r <? 500)%Z then lit " Client Error: "
        else lit " Server Error: ")
    ++ reason r ++ lit " for url: " ++ url.

Definition raise_for_status (url : str) (r : Response) : IO unit :=
  if is_error_status (status_code r)
  then raise (RequestException (http_error_msg url r) (Some r))
  else ret tt.

(** [response.json()] *)
Definition response_json (r : Response) : IO pyval :=
  match json_result r with
  | JsonValue v => ret v
  | JsonError msg => raise (JSONDecodeError msg)
  | JsonRaises name => raise (OtherError name)
  end.

(** [v.get(key, default)]: only a dictionary has the method. *)
Definition method_get (v : pyval) (key : str) (default : pyval) : IO pyval :=
  match v with
  | PDict d => ret (dict_get d key default)
  | _ => raise AttributeError
  end.

(** [f"{v}"] *)
Definition format_value (v : pyval) : str :=
  match v with
  | PStr s => s
  | _ => py_str v
  end.

(** *** [chat_completions] *)

Definition XAI_API_BASE : str := lit "https://api.x.ai/v1".
Definition API_KEY_HEADER : str := lit "X-XAI-API-Key".

(** The [detail] texts of the source, by code point. *)
Definition DETAIL_MISSING_HEADER : str :=
  [32570; 23569] ++ API_KEY_HEADER ++ [22836].
Definition DETAIL_INVALID_RESPONSE : str :=
  [19978; 28216; 26381; 21153; 22120; 36820; 22238; 26080; 25928; 21709;
   24212].
Definition DETAIL_PREFIX : str :=
  lit "xAI API" ++ [38169; 35823] ++ lit ": ".
Definition DETAIL_MISSING_KEY : str :=
  [32570; 23569] ++ lit "API" ++ [23494; 38053].

Definition EVENT_STREAM : str := lit "text/event-stream".
Definition APPLICATION_JSON : str := lit "application/json".

(** What a handler returns: a value that is sent as a JSON body, or a
    [StreamingResponse] over a generator. *)
Inductive endpoint_return : Type :=
| JSONBody (v : pyval)
| StreamingResponse (body : generator) (media_type : str).

Definition chat_headers (api_key : str) (req : ChatRequest) : gmap str str :=
  <[lit "Accept" :=
      if req_stream req then EVENT_STREAM else APPLICATION_JSON]>
  (<[lit "User-Agent" := lit "SillyTavern-Proxy/1.0"]>
  (<[lit "Content-Type" := APPLICATION_JSON]>
  (<[lit "Authorization" := lit "Bearer " ++ api_key]> ∅))).

Definition chat_url : str := XAI_API_BASE ++ lit "/chat/completions".

Definition chat_call (api_key : str) (req : ChatRequest) : OutboundCall :=
  mkCall POST chat_url (chat_headers api_key req)
    (Some (filtered_payload req)) (req_stream req) 200.

(** Lines 86 to 101: the handler of [except RequestException as e]. *)
Definition on_request_exception (e : exception) : IO endpoint_return :=
  match exc_response e with
  | Some response =>
    error_detail ←
      try_except
        (body ← response_json response;
         method_get body (lit "error") (PStr (text response)))
        (fun e' =>
           if is_JSONDecodeError e'
           then ret (PStr (slice_to 500 (text response)))
           else raise e');
    raise (HTTPException (status_code response)
             (DETAIL_PREFIX ++ format_value error_detail))
  | None =>
    raise (HTTPException 504 (DETAIL_PREFIX ++ exc_str e))
  end.

Definition chat_completions (req : ChatRequest) (request : Request)
  : IO endpoint_return :=
  let api_key := headers_get (headers request) API_KEY_HEADER [] in
  if decide (api_key = []) then
    raise (HTTPException 401 DETAIL_MISSING_HEADER)
  else
    try_except
      (response ← requests_call (chat_call api_key req);
       raise_for_status chat_url response;;
       if req_stream req then
         ret (StreamingResponse
                (stream_generator response (req_stream req)) EVENT_STREAM)
       else
         try_except
           (body ← response_json response; ret (JSONBody body))
           (fun e =>
              if is_JSONDecodeError e
              then raise (HTTPException 502 DETAIL_INVALID_RESPONSE)
              else raise e))
      (fun e =>
         if is_RequestException e then on_request_exception e
         else raise e).

(** *** [get_models] *)

Definition models_url : str := XAI_API_BASE ++ lit "/models".

Definition models_headers (api_key : str) : gmap str str :=
  <[lit "Content-Type" := APPLICATION_JSON]>
  (<[lit "Authorization" := lit "Bearer " ++ api_key]> ∅).

Definition models_call (api_key : str) : OutboundCall :=
  mkCall GET models_url (models_headers api_key) None false 10.

Definition model_entry (id : string) : pyval :=
  PDict [ (lit "id", PStr (lit id));
          (lit "object", PStr (lit "model"));
          (lit "created", PInt 1744681729);
          (lit "owned_by", PStr (lit "xAI")) ].

(** The catalog of lines 122 to 134. *)
Definition FALLBACK_MODELS : pyval :=
  PDict [ (lit "object", PStr (lit "list"));
          (lit "data",
           PList [ model_entry "grok-3-beta";
                   model_entry "grok-3-mini-beta";
                   model_entry "grok-3-fast-beta";
                   model_entry "grok-3-mini-fast-beta";
                   model_entry "grok-4-0709";
                   model_entry "grok-4-fast-non-reasoning";
                   model_entry "grok-4-fast-reasoning" ]) ].

Definition get_models (request : Request) : IO endpoint_return :=
  let api_key := headers_get (headers request) API_KEY_HEADER [] in
  if decide (api_key = []) then
    raise (HTTPException 401 DETAIL_MISSING_KEY)
  else
    try_except
      (response ← requests_call (models_call api_key);
       raise_for_status models_url response;;
       body ← response_json response;
       ret (JSONBody body))
      (fun e =>
         if is_RequestException e then ret (JSONBody FALLBACK_MODELS)
         else raise e).

(** *** [health_check] *)

Definition health_check : pyval :=
  PDict [(lit "status", PStr (lit "healthy"))].

(** *** Encoding a returned value

    The serving layer writes a value a handler returns with
    [json.dumps(..., ensure_ascii=False, allow_nan=False)] and encodes the
    text as UTF-8.  The first step raises [ValueError] on a float that is
    not finite (what [json.loads] makes of [NaN], [Infinity] or [1e999]),
    the second [UnicodeEncodeError] on a lone surrogate (what [json.loads]
    makes of an escape such as [\ud800]).  A value nested deeper than the
    interpreter's recursion limit fails as well; that limit is not part of
    the model, and the statements that give a 200 with a JSON body are
    about the fallback catalog only. *)

Definition is_finite (f : pyfloat) : bool :=
  match f with
  | Float64 bits => negb (N.land (N.shiftr bits 52) 0x7FF =? 0x7FF)
  end.

Definition is_surrogate (c : N) : bool := (0xD800 <=? c) && (c <=? 0xDFFF).

Definition no_surrogate (s : str) : bool :=
  forallb (fun c => negb (is_surrogate c)) s.

Fixpoint all_finite (v : pyval) : bool :=
  match v with
  | PFloat f => is_finite f
  | PList l => forallb all_finite l
  | PDict d => forallb (fun kv => all_finite (snd kv)) d
  | _ => true
  end.

Fixpoint all_encodable (v : pyval) : bool :=
  match v with
  | PStr s => no_surrogate s
  | PList l => forallb all_encodable l
  | PDict d =>
    forallb (fun kv => no_surrogate (fst kv) && all_encodable (snd kv)) d
  | _ => true
  end.

(** The exception the encoder raises on [v], if any. *)
Definition encode_failure (v : pyval) : option exception :=
  if negb (all_finite v) then Some (OtherError (lit "ValueError"))
  else if negb (all_encodable v)
  then Some (OtherError (lit "UnicodeEncodeError"))
  else None.

(** *** The routes

    What the serving layer sends for the outcome of a handler, once it has
    parsed the body of the request as JSON: 200 with the value the handler
    returned when it can encode it, and with the stream the handler
    returned; the status and detail of an [HTTPException]; 500 for any
    other exception, the encoder's included; and 422, without calling the
    handler, for a body that does not validate.  (A body that cannot be
    parsed at all never reaches this point.) *)
Inductive http_reply : Type :=
| Reply200 (body : endpoint_return)
| ErrorReply (status : Z) (detail : str)
| ValidationError422
| InternalError500 (e : exception).

Definition reply_status (r : http_reply) : Z :=
  match r with
  | Reply200 _ => 200
  | ErrorReply status _ => status
  | ValidationError422 => 422
  | InternalError500 _ => 500
  end.

Definition respond (outcome : exception + endpoint_return) : http_reply :=
  match outcome with
  | inr (JSONBody v) =>
    match encode_failure v with
    | Some e => InternalError500 e
    | None => Reply200 (JSONBody v)
    end
  | inr body => Reply200 body
  | inl (HTTPException status detail) => ErrorReply status detail
  | inl e => InternalError500 e
  end.

(** [POST /v1/chat/completions], from the parsed body on *)
Definition post_chat_completions (V : Coercions) (body : pyval)
    (request : Request) : http_reply * list OutboundCall :=
  match validate V body with
  | None => (ValidationError422, [])
  | Some req =>
    let '(outcome, log) := chat_completions req request [] in
    (respond outcome, log)
  end.

(** [GET /v1/models] *)
Definition get_v1_models (request : Request)
  : http_reply * list OutboundCall :=
  let '(outcome, log) := get_models request [] in
  (respond outcome, log).
End Handlers.

(** The credential the handlers read from the request; it is missing when
    there is no header of that name, or an empty one. *)
Definition credential (request : Request) : str :=
  headers_get (headers request) API_KEY_HEADER [].

Definition credential_missing (request : Request) : Prop :=
  credential request = [].

(** ** What the relay is expected to emit

    The events of one upstream line in the words of the specification: none
    for an empty line; for a line that starts with the bytes of [data: ],
    the text after them between [data: ] and two newlines; for any other
    line, the fixed error event. *)

Definition DATA_PREFIX_BYTES : bytes := Eval cbv in blit "data: ".

(** [data: {"error": "Invalid chunk format"}\n\n] *)
Definition INVALID_CHUNK_EVENT : str :=
  Eval cbv in
    lit "data: {" ++ [QUOTE] ++ lit "error" ++ [QUOTE] ++ lit ": "
      ++ [QUOTE] ++ lit "Invalid chunk format" ++ [QUOTE] ++ lit "}"
      ++ [NL; NL].

Definition expected_events (chunk : bytes) : list str :=
  match chunk with
  | [] => []
  | _ :: _ =>
    if bstartswith chunk DATA_PREFIX_BYTES then
      match decode_utf8 (drop 6 chunk) with
      | Some remainder => [lit "data: " ++ remainder ++ [NL; NL]]
      | None => []
      end
    else [INVALID_CHUNK_EVENT]
  end.

(** [data: {"error": "<msg>"}\n\n] *)
Definition error_event_text (msg : str) : str :=
  lit "data: {" ++ [QUOTE] ++ lit "error" ++ [QUOTE] ++ lit ": "
    ++ [QUOTE] ++ msg ++ [QUOTE] ++ lit "}" ++ [NL; NL].

(** A character that [json.dumps] writes as it is. *)
Definition plain_char (c : N) : bool :=
  (32 <=? c) && (c <=? 126) && negb (c =? QUOTE) && negb (c =? BACKSLASH).

Definition decodes (chunk : bytes) : Prop := is_Some (decode_utf8 chunk).

(** The state of the generator and of the connection after the consumer
    acted as [acts]. *)
Definition frame_after (acts : list action) (g : generator) (closes : nat)
  : gen_state := gen_frame (run acts g closes).1.2.

Definition closes_after (acts : list action) (g : generator) (closes : nat)
  : nat := (run acts g closes).2.


(** Example upstream lines: [data: {"a":1}], [data: {"a":2}], a line without
    the prefix, and a line that is not UTF-8. *)
Definition line_a1 : bytes :=
  Eval cbv in blit "data: {" ++ [x22] ++ blit "a" ++ [x22] ++ blit ":1}".
Definition line_a2 : bytes :=
  Eval cbv in blit "data: {" ++ [x22] ++ blit "a" ++ [x22] ++ blit ":2}".
Definition line_no_prefix : bytes := Eval cbv in blit "event: ping".
Definition line_not_utf8 : bytes := [xff].

Definition event_a1 : str :=
  Eval cbv in
    lit "data: {" ++ [QUOTE] ++ lit "a" ++ [QUOTE] ++ lit ":1}" ++ [NL; NL].
Definition event_a2 : str :=
  Eval cbv in
    lit "data: {" ++ [QUOTE] ++ lit "a" ++ [QUOTE] ++ lit ":2}" ++ [NL; NL].

Definition streamed (lines : upstream) : Response :=
  mkResponse 200 (lit "OK") [] (JsonError []) lines.

Definition msg_reset : str := Eval cbv in lit "Connection reset by peer".

(** The events of [events] put before those of a drained generator. *)
Definition prepend (events : list str)
    (r : list str * option resumed * generator * nat)
  : list str * option resumed * generator * nat :=
  let '(events', fin, g, c) := r in (events ++ events', fin, g, c).

(** ** Vocabulary for the statements about the handlers *)

(** The set of the allow-listed names. *)
Definition ALLOWED_SET : gset str := list_to_set ALLOWED.

(** Example requests and upstreams. *)
Definition with_key : Request :=
  mkRequest [(lit "x-xai-api-key", lit "xai-secret")].
Definition without_key : Request := mkRequest [].
Definition with_empty_key : Request :=
  mkRequest [(lit "x-xai-api-key", [])].

Definition no_str : pyval -> str := fun _ => [].



(** An upstream that answers 200 with the body [not json]. *)
Definition not_json : Response :=
  mkResponse 200 (lit "OK") (lit "not json")
    (JsonError (lit "Expecting value: line 1 column 1 (char 0)")) UEnd.

Definition always (r : Response) : OutboundCall -> call_result :=
  fun _ => Responds r.

Definition unreachable : OutboundCall -> call_result :=
  fun _ => Fails (lit "Connection refused") None.

(** The body [{"messages": [], "model": "grok-4-0709"}] and the request it
    validates to. *)
Definition minimal_body : pyval :=
  PDict [(K_messages, PList []); (K_model, PStr (lit "grok-4-0709"))].

Definition minimal : ChatRequest :=
  mkChatRequest [] (lit "grok-4-0709") None None None None None None.


(** A body with [max_tokens] null, [stream] false and a presence penalty of
    zero, and the request it validates to. *)
Definition body_with_null : pyval :=
  PDict [(K_messages, PList []); (K_model, PStr (lit "grok-4-0709"));
         (K_max_tokens, PNone); (K_stream, PBool false);
         (K_presence_penalty, PFloat (Float64 0))].

Definition request_with_null : ChatRequest :=
  mkChatRequest [] (lit "grok-4-0709") (Some None) None None (Some false)
    (Some (Some (Float64 0))) None.

(** ** Vocabulary for the further properties *)

(** The events among what a consumer received. *)
Definition yielded_events (out : list resumed) : list str :=
  omap (fun r => match r with Yielded event => Some event | _ => None end) out.

(** [event] has the frame of line 35: [data: ], a payload, two newlines. *)
Definition framed (event : str) : Prop :=
  exists payload, event = sse_data payload.

(** A printable ASCII character: no control character, no line break. *)
Definition printable (c : N) : bool := (32 <=? c) && (c <=? 126).

(** The number of lines the upstream still hands out. *)
Fixpoint upstream_lines (lines : upstream) : nat :=
  match lines with
  | ULine _ rest => S (upstream_lines rest)
  | _ => 0
  end.

(** The number of events a generator can still yield: one for each line
    left and one for a failure of the upstream. *)
Definition events_left (g : generator) : nat :=
  match gen_frame g with
  | GenCreated lines | GenSuspendedLoop lines => S (upstream_lines lines)
  | GenSuspendedHandler | GenClosed => 0
  end.

Definition is_dict (v : pyval) : bool :=
  match v with
  | PDict _ => true
  | _ => false
  end.

(** A response whose body is the line that is not UTF-8 between two data
    lines. *)
Definition broken_stream : Response :=
  streamed (script [line_a1] (ULine line_not_utf8 (ULine line_a2 UEnd))).

(** Example requests and answers for the handlers. *)
Definition streaming : ChatRequest :=
  mkChatRequest [] (lit "grok-4-0709") None None None (Some true) None None.

Definition two_lines : Response :=
  streamed (script [line_a1; line_a2] UEnd).

Definition created : Response :=
  mkResponse 201 (lit "Created") (lit "{}") (JsonValue (PDict [])) UEnd.

Definition error_array : Response :=
  mkResponse 500 (lit "Internal Server Error") (lit "[]")
    (JsonValue (PList [])) UEnd.

Definition error_without_field : Response :=
  mkResponse 400 (lit "Bad Request") (lit "{}") (JsonValue (PDict [])) UEnd.

Definition error_page : Response :=
  mkResponse 503 (lit "Service Unavailable") (lit "<html>down</html>")
    (JsonError (lit "Expecting value: line 1 column 1 (char 0)")) UEnd.

Definition catalog : pyval :=
  PDict [(lit "object", PStr (lit "list")); (lit "data", PList [])].

Definition models_ok : Response :=
  mkResponse 200 (lit "OK") [] (JsonValue catalog) UEnd.

(** An upstream that answers 200 with the body [1e999], which [json.loads]
    decodes to the float infinity. *)
Definition INFINITY : pyfloat := Float64 0x7FF0000000000000.

Definition models_infinite : Response :=
  mkResponse 200 (lit "OK") (lit "1e999") (JsonValue (PFloat INFINITY)) UEnd.


(** The statuses the chat-completions route produces of its own. *)
Definition OWN_STATUSES : list Z := [200; 401; 422; 500; 502; 504]%Z.

(** The response attached to the failure of a call, if any: the response
    whose status [raise_for_status] rejects, or the one a
    [RequestException] of the call carries. *)
Definition failure_response (result : call_result) : option Response :=
  match result with
  | Responds r => if is_error_status (status_code r) then Some r else None
  | Fails _ response => response
  end.

(** The fields of the body with a null [max_tokens]. *)
Definition fields_with_null : list (str * pyval) :=
  [(K_messages, PList []); (K_model, PStr (lit "grok-4-0709"));
   (K_max_tokens, PNone); (K_stream, PBool false);
   (K_presence_penalty, PFloat (Float64 0))].

Definition models_not_json : Response :=
  mkResponse 200 (lit "OK") (lit "not json")
    (JsonError (lit "Expecting value: line 1 column 1 (char 0)")) UEnd.

(** * Properties *)

(** ** Decoding and the ASCII prefix *)

Lemma lor_ge_l (a b : N) : 0x80 <= a -> 0x80 <= N.lor a b.
Proof.
  intros Ha. destruct (N.le_gt_cases 0x80 (N.lor a b)) as [|Hlt]; [done|].
  exfalso.
  assert (Hs : N.shiftr (N.lor a b) 7 = 0).
  { rewrite N.shiftr_div_pow2. by apply N.div_small. }
  rewrite N.shiftr_lor in Hs. apply N.lor_eq_0_iff in Hs as [Hs _].
  rewrite N.shiftr_div_pow2 in Hs.
  apply N.div_small_iff in Hs; [|done]. change (2 ^ 7) with 128 in Hs. lia.
Qed.

Lemma lor_ge_r (a b : N) : 0x80 <= b -> 0x80 <= N.lor a b.
Proof. rewrite N.lor_comm. apply lor_ge_l. Qed.

Lemma shiftl_land_ge (b m k lo : N) :
  lo <= b mod 2 ^ m -> 0x80 <= lo * 2 ^ k ->
  0x80 <= N.shiftl (N.land b (N.ones m)) k.
Proof.
  intros Hlo Hk. rewrite N.land_ones, N.shiftl_mul_pow2.
  etrans; [exact Hk|]. by apply N.mul_le_mono_r.
Qed.

Ltac bool_hyps :=
  repeat match goal with
  | H : _ && _ = true |- _ => apply andb_true_iff in H as [? ?]
  | H : (_ <=? _) = true |- _ => apply N.leb_le in H
  | H : (_ <? _) = true |- _ => apply N.ltb_lt in H
  | H : (_ <? _) = false |- _ => apply N.ltb_ge in H
  | H : (_ =? _) = true |- _ => apply N.eqb_eq in H
  | H : (_ =? _) = false |- _ => apply N.eqb_neq in H
  end.

Lemma mod_lower (b base m : N) :
  m <> 0 -> base mod m = 0 -> base <= b -> b < base + m -> b mod m = b - base.
Proof.
  intros Hm Hbase H1 H2.
  apply N.Div0.div_exact in Hbase.
  symmetry. apply (N.mod_unique b m (base / m)); lia.
Qed.

(** The first code point of a decoded chunk: an ASCII byte stands for
    itself, and a longer sequence never decodes to an ASCII character. *)
Lemma utf8_decode_N_cons (b : N) (t : list N) (s : str) :
  utf8_decode_N (b :: t) = Some s ->
  exists c s', s = c :: s' /\
    ((b < 0x80 /\ c = b /\ utf8_decode_N t = Some s') \/
     (0x80 <= b /\ 0x80 <= c)).
Proof.
  cbn [utf8_decode_N]. intros H.
  destruct (b <? 0x80) eqn:Hb.
  { destruct (utf8_decode_N t) as [s'|] eqn:Ht; [|done].
    injection H as <-. bool_hyps. exists b, s'. naive_solver. }
  destruct ((0xC2 <=? b) && (b <=? 0xDF)) eqn:H2.
  { destruct t as [|b1 t1]; [done|].
    destruct (is_cont b1); [|done].
    destruct (utf8_decode_N t1) as [s'|]; [|done].
    injection H as <-. bool_hyps. eexists _, s'. split; [done|]. right.
    split; [done|]. apply lor_ge_l.
    change 0x1F with (N.ones 5). apply (shiftl_land_ge _ _ _ 2); [|done].
    rewrite (mod_lower b 192 (2 ^ 5)); [lia|done|done|lia|].
    change (2 ^ 5) with 32. lia. }
  destruct ((0xE0 <=? b) && (b <=? 0xEF)) eqn:H3.
  { destruct t as [|b1 [|b2 t2]]; [done..|].
    destruct (second_ok3 b b1 && is_cont b2) eqn:Hc; [|done].
    destruct (utf8_decode_N t2) as [s'|]; [|done].
    injection H as <-. bool_hyps. eexists _, s'. split; [done|]. right.
    split; [done|].
    unfold second_ok3 in *. destruct (b =? 0xE0) eqn:He; bool_hyps.
    - subst b. apply lor_ge_r, lor_ge_l. unfold low6.
      change 0x3F with (N.ones 6). apply (shiftl_land_ge _ _ _ 32); [|done].
      rewrite (mod_lower b1 128 (2 ^ 6)); [lia|done|done|lia|].
      change (2 ^ 6) with 64. lia.
    - apply lor_ge_l.
      change 0x0F with (N.ones 4). apply (shiftl_land_ge _ _ _ 1); [|done].
      rewrite (mod_lower b 224 (2 ^ 4)); [lia|done|done|lia|].
      change (2 ^ 4) with 16. lia. }
  destruct ((0xF0 <=? b) && (b <=? 0xF4)) eqn:H4; [|done].
  destruct t as [|b1 [|b2 [|b3 t3]]]; [done..|].
  destruct (second_ok4 b b1 && is_cont b2 && is_cont b3) eqn:Hc; [|done].
  destruct (utf8_decode_N t3) as [s'|]; [|done].
  injection H as <-. bool_hyps. eexists _, s'. split; [done|]. right.
  split; [done|].
  unfold second_ok4 in *. destruct (b =? 0xF0) eqn:He; bool_hyps.
  - subst b. apply lor_ge_r, lor_ge_l. unfold low6.
    change 0x3F with (N.ones 6). apply (shiftl_land_ge _ _ _ 16); [|done].
    rewrite (mod_lower b1 128 (2 ^ 6)); [lia|done|done|lia|].
    change (2 ^ 6) with 64. lia.
  - apply lor_ge_l.
    change 0x07 with (N.ones 3). apply (shiftl_land_ge _ _ _ 1); [|done].
    rewrite (mod_lower b 240 (2 ^ 3)); [lia|done|done|lia|].
    change (2 ^ 3) with 8. lia.
Qed.

(** On a chunk that decodes, testing an ASCII prefix on the bytes or on the
    decoded text is the same test, and cutting the prefix off commutes with
    decoding. *)
Lemma startswith_decode (p : bytes) :
  Forall (fun c => Byte.to_N c < 0x80) p ->
  forall (chunk : bytes) (s : str),
  decode_utf8 chunk = Some s ->
  startswith s (map Byte.to_N p) = bstartswith chunk p /\
  (bstartswith chunk p = true ->
   decode_utf8 (drop (length p) chunk) = Some (drop (length p) s) /\
   s = map Byte.to_N p ++ drop (length p) s).
Proof.
  induction 1 as [|c p Hc _ IH]; intros chunk s Hs.
  { cbn. rewrite ?drop_0. auto. }
  destruct chunk as [|d chunk].
  { injection Hs as <-. done. }
  apply utf8_decode_N_cons in Hs as (c0 & s' & -> & Hcase).
  cbn [map startswith bstartswith length drop].
  destruct Hcase as [(Hd & -> & Hs')|[Hd Hc0]].
  - destruct (IH chunk s' Hs') as [-> Hrest]. split; [done|].
    intros [Heq Hp]%andb_true_iff. apply N.eqb_eq in Heq.
    destruct (Hrest Hp) as [? ?]. split; [done|].
    cbn [app]. congruence.
  - assert ((Byte.to_N c =? c0) = false) as -> by (apply N.eqb_neq; lia).
    assert ((Byte.to_N c =? Byte.to_N d) = false) as ->
      by (apply N.eqb_neq; lia).
    done.
Qed.

Lemma data_prefix_decode (chunk : bytes) (s : str) :
  decode_utf8 chunk = Some s ->
  startswith s DATA_PREFIX = bstartswith chunk DATA_PREFIX_BYTES /\
  (bstartswith chunk DATA_PREFIX_BYTES = true ->
   decode_utf8 (drop 6 chunk) = Some (slice_from 6 s) /\
   s = DATA_PREFIX ++ slice_from 6 s).
Proof.
  apply (startswith_decode DATA_PREFIX_BYTES).
  repeat constructor.
Qed.

(** ** The relay, line by line *)

Lemma relay_line_expected (chunk : bytes) :
  decodes chunk ->
  relay_line chunk =
    match expected_events chunk with
    | [] => LineSkip
    | event :: _ => LineYield event
    end.
Proof.
  intros [s Hs]. destruct chunk as [|b chunk]; [done|].
  unfold relay_line, expected_events. rewrite Hs.
  destruct (data_prefix_decode _ _ Hs) as [-> Hrest].
  destruct (bstartswith _ _) eqn:Hp; [|done].
  destruct (Hrest eq_refl) as [-> _]. done.
Qed.

Lemma expected_events_length (chunk : bytes) :
  (length (expected_events chunk) <= 1)%nat.
Proof.
  unfold expected_events. destruct chunk; [cbn; lia|].
  destruct (bstartswith _ _); [|cbn; lia].
  destruct (decode_utf8 _); cbn; lia.
Qed.

Lemma anext_created (stream : bool) (lines : upstream) (closes : nat) :
  anext (mkGenerator stream (GenCreated lines)) closes =
  anext (mkGenerator stream (GenSuspendedLoop lines)) closes.
Proof. reflexivity. Qed.

Lemma drain_created (fuel : nat) (stream : bool) (lines : upstream)
    (closes : nat) :
  drain (S fuel) (mkGenerator stream (GenCreated lines)) closes =
  drain (S fuel) (mkGenerator stream (GenSuspendedLoop lines)) closes.
Proof. cbn [drain]. by rewrite anext_created. Qed.

(** Draining a generator that still has [chunks] to read: their events come
    out in order, and the generator goes on with what follows them. *)
Lemma drain_script (chunks : list bytes) (tail : upstream) (stream : bool)
    (closes fuel : nat) :
  Forall decodes chunks ->
  drain (length (concat (map expected_events chunks)) + S fuel)
        (mkGenerator stream (GenSuspendedLoop (script chunks tail))) closes =
  prepend (concat (map expected_events chunks))
    (drain (S fuel) (mkGenerator stream (GenSuspendedLoop tail)) closes).
Proof.
  remember (drain (S fuel) (mkGenerator stream (GenSuspendedLoop tail)) closes)
    as d eqn:Hd0.
  induction 1 as [|chunk chunks Hd _ IH].
  { cbn [map concat length app plus script foldr prepend]. subst d.
    by destruct (drain _ _ _) as [[[? ?] ?] ?]. }
  cbn [map concat script foldr]. fold (script chunks tail).
  pose proof (relay_line_expected chunk Hd) as Hline.
  pose proof (expected_events_length chunk) as Hlen.
  destruct (expected_events chunk) as [|event [|]]; [| |cbn in Hlen; lia].
  - cbn [app]. rewrite <- IH.
    destruct (length _ + S fuel)%nat as [|n] eqn:Hn; [lia|].
    cbn [drain anext gen_frame gen_stream run_loop]. rewrite Hline. reflexivity.
  - cbn [app length plus drain anext gen_frame gen_stream run_loop].
    rewrite Hline. rewrite IH.
    by destruct d as [[[? ?] ?] ?].
Qed.

Lemma drain_end (fuel : nat) (stream : bool) (closes : nat) :
  drain (S fuel) (mkGenerator stream (GenSuspendedLoop UEnd)) closes =
  ([], Some StopAsyncIteration, mkGenerator stream GenClosed,
   finally_block stream closes).
Proof. reflexivity. Qed.

Lemma drain_fail (fuel : nat) (stream : bool) (msg : str) (closes : nat) :
  drain (S (S fuel)) (mkGenerator stream (GenSuspendedLoop (UFail msg))) closes =
  ([sse_data (json_dumps_error msg)], Some StopAsyncIteration,
   mkGenerator stream GenClosed, finally_block stream closes).
Proof. reflexivity. Qed.

Lemma events_le_lines (chunks : list bytes) :
  (length (concat (map expected_events chunks)) <= length chunks)%nat.
Proof.
  induction chunks as [|chunk chunks IH]; [done|].
  cbn [map concat]. rewrite length_app. cbn [length].
  pose proof (expected_events_length chunk). lia.
Qed.

Lemma drain_until_end (chunks : list bytes) (stream : bool)
    (closes fuel : nat) :
  Forall decodes chunks ->
  (length chunks < fuel)%nat ->
  drain fuel (mkGenerator stream (GenCreated (script chunks UEnd))) closes =
    (concat (map expected_events chunks), Some StopAsyncIteration,
     mkGenerator stream GenClosed, finally_block stream closes).
Proof.
  intros Hdec Hfuel.
  pose proof (events_le_lines chunks) as Hle.
  replace fuel
    with (length (concat (map expected_events chunks))
          + S (fuel - length (concat (map expected_events chunks)) - 1))%nat
    by lia.
  rewrite Nat.add_succ_r, drain_created, <- Nat.add_succ_r.
  rewrite drain_script by done. rewrite drain_end.
  cbn [prepend]. by rewrite app_nil_r.
Qed.

Lemma drain_until_failure (chunks : list bytes) (msg : str) (stream : bool)
    (closes fuel : nat) :
  Forall decodes chunks ->
  (S (length chunks) < fuel)%nat ->
  drain fuel (mkGenerator stream (GenCreated (script chunks (UFail msg))))
        closes =
    (concat (map expected_events chunks) ++ [sse_data (json_dumps_error msg)],
     Some StopAsyncIteration, mkGenerator stream GenClosed,
     finally_block stream closes).
Proof.
  intros Hdec Hfuel.
  pose proof (events_le_lines chunks) as Hle.
  replace fuel
    with (length (concat (map expected_events chunks))
          + S (S (fuel - length (concat (map expected_events chunks)) - 2)))%nat
    by lia.
  rewrite Nat.add_succ_r, drain_created, <- Nat.add_succ_r.
  rewrite drain_script by done. by rewrite drain_fail.
Qed.

(** X21: when every line the upstream hands out is valid UTF-8 and the
    upstream then ends normally, the consumer that reads to the end
    receives, in order, for each non-empty line that starts with [data: ]
    exactly [data: <remainder>\n\n], for each other non-empty line exactly
    one [data: {"error": "Invalid chunk format"}\n\n], and nothing for an
    empty line; the lines after a line without the prefix are relayed as
    usual, and the stream then ends. *)
Theorem relay_lines_framing (response : Response) (chunks : list bytes)
    (stream : bool) (closes fuel : nat) :
  iter_lines response = script chunks UEnd ->
  Forall decodes chunks ->
  (length chunks < fuel)%nat ->
  drain fuel (stream_generator response stream) closes =
    (concat (map expected_events chunks), Some StopAsyncIteration,
     mkGenerator stream GenClosed, finally_block stream closes).
Proof.
  intros Hlines Hdec Hfuel. unfold stream_generator. rewrite Hlines.
  by apply drain_until_end.
Qed.

(** The two data lines of the specification's example, and nothing else. *)
Example relay_two_data_lines :
  drain 3 (stream_generator (streamed (script [line_a1; line_a2] UEnd)) true) 0
    = ([event_a1; event_a2], Some StopAsyncIteration,
       mkGenerator true GenClosed, 1%nat).
Proof. reflexivity. Qed.

Lemma relay_lines_framing_witness :
  drain 5 (stream_generator
             (streamed (script [line_a1; []; line_no_prefix; line_a2] UEnd))
             true) 0 =
    ([event_a1; INVALID_CHUNK_EVENT; event_a2], Some StopAsyncIteration,
     mkGenerator true GenClosed, 1%nat).
Proof.
  apply (relay_lines_framing
           (streamed (script [line_a1; []; line_no_prefix; line_a2] UEnd))
           [line_a1; []; line_no_prefix; line_a2] true 0 5).
  - reflexivity.
  - repeat (constructor; [eexists; vm_compute; reflexivity|]). constructor.
  - cbn. lia.
Defined.

(** C1, where the code departs from it: a non-empty line that is not UTF-8
    does not carry the prefix, yet no [Invalid chunk format] event is
    emitted for it; [chunk.decode] raises [UnicodeDecodeError], which the
    generator does not catch, and the valid data line after it is not
    relayed. *)
Lemma undecodable_line_not_relayed :
  line_not_utf8 <> [] /\
  bstartswith line_not_utf8 DATA_PREFIX_BYTES = false /\
  drain 5 (stream_generator
             (streamed (script [line_not_utf8; line_a1] UEnd)) true) 0 =
    ([], Some (Raised UnicodeDecodeError), mkGenerator true GenClosed, 1%nat).
Proof. split; [done|]. split; reflexivity. Qed.

(** A message of plain characters is written as it is. *)
Lemma json_dumps_str_plain (msg : str) :
  Forall (fun c => plain_char c = true) msg ->
  json_dumps_str msg = [QUOTE] ++ msg ++ [QUOTE].
Proof.
  intros Hp. unfold json_dumps_str. do 2 f_equal.
  induction Hp as [|c msg Hc _ IH]; [done|].
  cbn [map concat]. rewrite IH. unfold escape_char, plain_char in *.
  apply andb_true_iff in Hc as [[Hr Hq]%andb_true_iff Hb].
  apply negb_true_iff in Hq, Hb. by rewrite Hq, Hb, Hr.
Qed.

Lemma error_event_plain (msg : str) :
  Forall (fun c => plain_char c = true) msg ->
  sse_data (json_dumps_error msg) = error_event_text msg.
Proof.
  intros Hp. unfold sse_data, json_dumps_error, error_event_text.
  rewrite (json_dumps_str_plain msg Hp).
  rewrite (json_dumps_str_plain (lit "error"))
    by (repeat constructor).
  change DATA_PREFIX with (lit "data: ").
  change (lit "data: {") with (lit "data: " ++ lit "{").
  by rewrite <- !app_assoc.
Qed.

(** C4: when the upstream fails with a [RequestException] after the lines
    [chunks], the consumer receives their events, then exactly one event
    [data: <json of {"error": message}>\n\n], and the stream ends; the
    generator is finished and does not read the upstream again.  When the
    upstream simply ends, the stream ends after the events of the lines,
    with no trailing event.  For a message of plain characters the error
    event is [data: {"error": "<message>"}\n\n]. *)
Theorem transport_failure_one_error_event (response : Response)
    (chunks : list bytes) (msg : str) (stream : bool) (closes fuel : nat) :
  Forall decodes chunks ->
  (S (length chunks) < fuel)%nat ->
  (iter_lines response = script chunks (UFail msg) ->
   drain fuel (stream_generator response stream) closes =
     (concat (map expected_events chunks) ++ [sse_data (json_dumps_error msg)],
      Some StopAsyncIteration, mkGenerator stream GenClosed,
      finally_block stream closes)) /\
  (iter_lines response = script chunks UEnd ->
   drain fuel (stream_generator response stream) closes =
     (concat (map expected_events chunks),
      Some StopAsyncIteration, mkGenerator stream GenClosed,
      finally_block stream closes)) /\
  (Forall (fun c => plain_char c = true) msg ->
   sse_data (json_dumps_error msg) = error_event_text msg).
Proof.
  intros Hdec Hfuel. split; [|split].
  - intros Hlines. unfold stream_generator. rewrite Hlines.
    by apply drain_until_failure.
  - intros Hlines. unfold stream_generator. rewrite Hlines.
    apply drain_until_end; [done|lia].
  - apply error_event_plain.
Qed.

Lemma transport_failure_one_error_event_witness :
  drain 4 (stream_generator
             (streamed (script [line_a1; line_a2] (UFail msg_reset))) true) 0 =
    ([event_a1; event_a2; error_event_text msg_reset],
     Some StopAsyncIteration, mkGenerator true GenClosed, 1%nat).
Proof.
  apply (proj1 (transport_failure_one_error_event
           (streamed (script [line_a1; line_a2] (UFail msg_reset)))
           [line_a1; line_a2] msg_reset true 0 4
           ltac:(repeat (constructor; [eexists; vm_compute; reflexivity|]);
                 constructor)
           ltac:(cbn; lia))).
  reflexivity.
Defined.

(** ** The connection is closed once *)









(** A consumer that cancels after the first event, one that reads to the
    end, and one that reads up to a transport failure: one close each. *)
Example cancel_mid_stream_closes_once :
  let g := stream_generator (streamed (script [line_a1; line_a2] UEnd)) true in
  run [Next; Cancel; Next] g 0
    = ([Yielded event_a1; StopAsyncIteration], mkGenerator true GenClosed,
       1%nat) /\
  closes_after [Next; Next; Next; Next; Cancel] g 0 = 1%nat /\
  closes_after [Next; Next; Next; Cancel]
    (stream_generator (streamed (script [line_a1] (UFail msg_reset))) true) 0
    = 1%nat.
Proof. repeat split; reflexivity. Qed.


(** ** What the handlers compute *)

Section HandlerFacts.
Variable provider : OutboundCall -> call_result.
Variable py_str : pyval -> str.

Lemma chat_completions_no_key (req : ChatRequest) (request : Request)
    (log : list OutboundCall) :
  credential_missing request ->
  chat_completions provider py_str req request log =
    (inl (HTTPException 401 DETAIL_MISSING_HEADER), log).
Proof.
  unfold credential_missing, credential, chat_completions. intros ->.
  by rewrite decide_True.
Qed.

Lemma get_models_no_key (request : Request) (log : list OutboundCall) :
  credential_missing request ->
  get_models provider request log =
    (inl (HTTPException 401 DETAIL_MISSING_KEY), log).
Proof.
  unfold credential_missing, credential, get_models. intros ->.
  by rewrite decide_True.
Qed.

(** With a credential, the handler makes its one call and goes on with
    what the provider answers. *)
Lemma chat_completions_with_key (req : ChatRequest) (request : Request)
    (log : list OutboundCall) :
  ~ credential_missing request ->
  chat_completions provider py_str req request log =
    let call := chat_call (credential request) req in
    let log' := log ++ [call] in
    match provider call with
    | Fails msg response =>
      on_request_exception py_str (RequestException msg response) log'
    | Responds r =>
      if is_error_status (status_code r) then
        on_request_exception py_str
          (RequestException (http_error_msg chat_url r) (Some r)) log'
      else if req_stream req then
        (inr (StreamingResponse (stream_generator r (req_stream req))
                EVENT_STREAM), log')
      else
        match json_result r with
        | JsonValue v => (inr (JSONBody v), log')
        | JsonError _ =>
          (inl (HTTPException 502 DETAIL_INVALID_RESPONSE), log')
        | JsonRaises name => (inl (OtherError name), log')
        end
    end.
Proof.
  unfold credential_missing, credential, chat_completions. intros Hkey.
  rewrite decide_False by done.
  change (headers_get (headers request) API_KEY_HEADER [])
    with (credential request).
  unfold try_except, mbind, IO_bind, bind, requests_call, raise_for_status.
  cbn zeta. destruct (provider _) as [r|msg response]; [|done].
  destruct (is_error_status (status_code r)); [done|].
  unfold ret at 1. destruct (req_stream req); [done|].
  unfold response_json. by destruct (json_result r).
Qed.

Lemma get_models_with_key (request : Request) (log : list OutboundCall) :
  ~ credential_missing request ->
  get_models provider request log =
    let call := models_call (credential request) in
    let log' := log ++ [call] in
    match provider call with
    | Fails _ _ => (inr (JSONBody FALLBACK_MODELS), log')
    | Responds r =>
      if is_error_status (status_code r) then
        (inr (JSONBody FALLBACK_MODELS), log')
      else
        match json_result r with
        | JsonValue v => (inr (JSONBody v), log')
        | JsonError _ => (inr (JSONBody FALLBACK_MODELS), log')
        | JsonRaises name => (inl (OtherError name), log')
        end
    end.
Proof.
  unfold credential_missing, credential, get_models. intros Hkey.
  rewrite decide_False by done.
  change (headers_get (headers request) API_KEY_HEADER [])
    with (credential request).
  unfold try_except, mbind, IO_bind, bind, requests_call, raise_for_status.
  cbn zeta. destruct (provider _) as [r|msg response]; [|done].
  destruct (is_error_status (status_code r)); [done|].
  unfold ret at 1. unfold response_json. by destruct (json_result r).
Qed.

(** What the handler of [RequestException] raises. *)
Lemma on_request_exception_cases (msg : str) (response : option Response)
    (log : list OutboundCall) :
  on_request_exception py_str (RequestException msg response) log =
    match response with
    | None => (inl (HTTPException 504 (DETAIL_PREFIX ++ msg)), log)
    | Some r =>
      match json_result r with
      | JsonValue (PDict d) =>
        (inl (HTTPException (status_code r)
                (DETAIL_PREFIX
                 ++ format_value py_str
                      (dict_get d (lit "error") (PStr (text r))))), log)
      | JsonValue _ => (inl AttributeError, log)
      | JsonError _ =>
        (inl (HTTPException (status_code r)
                (DETAIL_PREFIX ++ slice_to 500 (text r))), log)
      | JsonRaises name => (inl (OtherError name), log)
      end
    end.
Proof.
  unfold on_request_exception. cbn [exc_response].
  destruct response as [r|]; [|done].
  unfold try_except, mbind, IO_bind, bind, response_json, method_get.
  destruct (json_result r) as [v|?|?]; [|done..]. by destruct v.
Qed.

(** With a credential the handler makes exactly one outbound call, whatever
    comes back. *)
Lemma chat_completions_one_call (req : ChatRequest) (request : Request) :
  ~ credential_missing request ->
  (chat_completions provider py_str req request []).2
    = [chat_call (credential request) req].
Proof.
  intros Hkey. rewrite chat_completions_with_key by done. cbn zeta.
  destruct (provider _) as [r|msg response].
  - destruct (is_error_status (status_code r)).
    + rewrite on_request_exception_cases.
      destruct (json_result r) as [[]| |]; done.
    + destruct (req_stream req); [done|]. by destruct (json_result r).
  - rewrite on_request_exception_cases.
    destruct response as [r|]; [|done].
    destruct (json_result r) as [[]| |]; done.
Qed.
End HandlerFacts.

(** ** The allow-list *)

Lemma dom_put_if_set {A} (key : str) (conv : A -> pyval) (field : option A)
    (d : gmap str pyval) :
  dom (put_if_set key conv field d) = name_if_set key field ∪ dom d.
Proof.
  destruct field; cbn [put_if_set name_if_set];
    [apply dom_insert_L|set_solver].
Qed.

Lemma dom_dict_exclude_unset (req : ChatRequest) :
  dom (dict_exclude_unset req) = fields_set req.
Proof.
  unfold dict_exclude_unset, fields_set.
  rewrite !dom_put_if_set, !dom_insert_L, dom_empty_L.
  generalize (name_if_set K_max_tokens (max_tokens req))
    (name_if_set K_temperature (temperature req))
    (name_if_set K_top_p (top_p req))
    (name_if_set K_stream (stream req))
    (name_if_set K_presence_penalty (presence_penalty req))
    (name_if_set K_frequency_penalty (frequency_penalty req)).
  generalize K_messages K_model. set_solver.
Qed.

Ltac keys_differ := intros Heq; vm_compute in Heq; discriminate Heq.

Lemma lookup_allow_list_filter (payload : gmap str pyval) (k : str) :
  allow_list_filter payload !! k =
  if decide (k ∈ ALLOWED) then payload !! k else None.
Proof.
  unfold allow_list_filter. rewrite map_lookup_filter.
  destruct (payload !! k) as [v|]; cbn; [|by case_decide].
  case_guard; try case_decide; done.
Qed.

Lemma lookup_put_if_set_ne {A} (key key' : str) (conv : A -> pyval)
    (field : option A) (d : gmap str pyval) :
  key <> key' -> put_if_set key conv field d !! key' = d !! key'.
Proof. intros Hne. destruct field; [by apply lookup_insert_ne|done]. Qed.

Lemma lookup_put_if_set_eq {A} (key : str) (conv : A -> pyval)
    (field : option A) (d : gmap str pyval) :
  d !! key = None -> put_if_set key conv field d !! key = conv <$> field.
Proof. intros Hd. destruct field; [by apply lookup_insert_eq|done]. Qed.

Lemma lookup_dict_exclude_unset (req : ChatRequest) :
  dict_exclude_unset req !! K_messages
    = Some (PList (map PDict (messages req))) /\
  dict_exclude_unset req !! K_model = Some (PStr (model req)) /\
  dict_exclude_unset req !! K_max_tokens
    = of_nullable PInt <$> max_tokens req /\
  dict_exclude_unset req !! K_temperature
    = of_nullable PFloat <$> temperature req /\
  dict_exclude_unset req !! K_top_p = of_nullable PFloat <$> top_p req /\
  dict_exclude_unset req !! K_stream = PBool <$> stream req /\
  dict_exclude_unset req !! K_presence_penalty
    = of_nullable PFloat <$> presence_penalty req /\
  dict_exclude_unset req !! K_frequency_penalty
    = of_nullable PFloat <$> frequency_penalty req.
Proof.
  unfold dict_exclude_unset.
  repeat split;
    repeat first
      [ rewrite lookup_put_if_set_ne by keys_differ
      | rewrite lookup_insert_ne by keys_differ
      | rewrite lookup_insert_eq
      | rewrite lookup_put_if_set_eq ];
    try reflexivity;
    repeat first
      [ rewrite lookup_put_if_set_ne by keys_differ
      | rewrite lookup_insert_ne by keys_differ ];
    apply lookup_empty.
Qed.

(** C5: the forwarded payload holds, under each allow-listed name, the
    value of the field when the request set it and nothing when it did not
    (so an explicit zero or false stays apart from an omission), and holds
    nothing under any other name, [presence_penalty] and
    [frequency_penalty] included; its keys are exactly the set fields that
    are in the allow-list; and it is the JSON body of the one outbound
    call. *)
Theorem forwarded_payload_keys (req : ChatRequest) :
  dom (filtered_payload req) = fields_set req ∩ ALLOWED_SET /\
  filtered_payload req !! K_messages
    = Some (PList (map PDict (messages req))) /\
  filtered_payload req !! K_model = Some (PStr (model req)) /\
  filtered_payload req !! K_max_tokens = of_nullable PInt <$> max_tokens req /\
  filtered_payload req !! K_temperature
    = of_nullable PFloat <$> temperature req /\
  filtered_payload req !! K_top_p = of_nullable PFloat <$> top_p req /\
  filtered_payload req !! K_stream = PBool <$> stream req /\
  filtered_payload req !! K_presence_penalty = None /\
  filtered_payload req !! K_frequency_penalty = None /\
  (forall k, k ∉ ALLOWED -> filtered_payload req !! k = None) /\
  (forall provider py_str request,
     ~ credential_missing request ->
     map call_json (chat_completions provider py_str req request []).2
       = [Some (filtered_payload req)]).
Proof.
  destruct (lookup_dict_exclude_unset req)
    as (Hms & Hmd & Hmt & Hte & Htp & Hst & _ & _).
  unfold filtered_payload.
  split.
  { apply set_eq. intros k.
    rewrite elem_of_intersection, <- dom_dict_exclude_unset.
    rewrite !elem_of_dom, lookup_allow_list_filter.
    unfold ALLOWED_SET. rewrite elem_of_list_to_set.
    case_decide; [naive_solver|].
    split; [by intros [? ?]|naive_solver]. }
  rewrite !lookup_allow_list_filter.
  repeat split; try (rewrite decide_True by (vm_compute; set_solver); done).
  - intros k Hk. rewrite lookup_allow_list_filter. by rewrite decide_False.
  - intros provider py_str request Hkey.
    by rewrite chat_completions_one_call.
Qed.

(** C9: the narrowing is idempotent, on the payload of every request and on
    every dictionary; it keeps every entry whose key is in the allow-list,
    with its value, and the keys it removes are outside the allow-list. *)
Theorem allow_list_filter_idempotent (req : ChatRequest)
    (payload : gmap str pyval) :
  allow_list_filter (filtered_payload req) = filtered_payload req /\
  allow_list_filter (allow_list_filter payload) = allow_list_filter payload /\
  (forall k, k ∈ ALLOWED -> allow_list_filter payload !! k = payload !! k) /\
  (forall k, k ∈ dom payload -> k ∉ dom (allow_list_filter payload) ->
             k ∉ ALLOWED).
Proof.
  assert (Hidem : forall m, allow_list_filter (allow_list_filter m)
                            = allow_list_filter m).
  { intros m. apply map_eq. intros k. rewrite !lookup_allow_list_filter.
    by case_decide. }
  split; [apply Hidem|]. split; [apply Hidem|]. split.
  - intros k Hk. rewrite lookup_allow_list_filter. by rewrite decide_True.
  - intros k Hin Hout Hk. apply Hout.
    rewrite elem_of_dom, lookup_allow_list_filter, decide_True by done.
    by apply elem_of_dom.
Qed.

(** C10: an optional allow-listed field that the request set to null is
    forwarded with the value null, and one that the request left out is not
    forwarded. *)
Theorem explicit_null_is_forwarded (req : ChatRequest) :
  (max_tokens req = Some None ->
   filtered_payload req !! K_max_tokens = Some PNone) /\
  (temperature req = Some None ->
   filtered_payload req !! K_temperature = Some PNone) /\
  (top_p req = Some None ->
   filtered_payload req !! K_top_p = Some PNone) /\
  (max_tokens req = None -> filtered_payload req !! K_max_tokens = None) /\
  (temperature req = None -> filtered_payload req !! K_temperature = None) /\
  (top_p req = None -> filtered_payload req !! K_top_p = None).
Proof.
  destruct (lookup_dict_exclude_unset req)
    as (_ & _ & Hmt & Hte & Htp & _).
  unfold filtered_payload. rewrite !lookup_allow_list_filter.
  rewrite Hmt, Hte, Htp.
  repeat split; intros ->; reflexivity.
Qed.

Example null_and_zero_are_forwarded :
  validate exact_types body_with_null = Some request_with_null /\
  filtered_payload request_with_null !! K_max_tokens = Some PNone /\
  filtered_payload request_with_null !! K_stream = Some (PBool false) /\
  filtered_payload request_with_null !! K_temperature = None /\
  filtered_payload request_with_null !! K_presence_penalty = None /\
  dom (filtered_payload request_with_null)
    = {[ K_messages; K_model; K_max_tokens; K_stream ]}.
Proof. repeat split; vm_compute; reflexivity. Qed.

(** A body in which a field is null validates to a request that has the
    field set to [None], whatever the coercions. *)
Lemma validate_keeps_null (V : Coercions) (d : list (str * pyval))
    (req : ChatRequest) :
  validate V (PDict d) = Some req ->
  (dict_lookup d K_max_tokens = Some PNone -> max_tokens req = Some None) /\
  (dict_lookup d K_temperature = Some PNone -> temperature req = Some None) /\
  (dict_lookup d K_top_p = Some PNone -> top_p req = Some None) /\
  (dict_lookup d K_max_tokens = None -> max_tokens req = None) /\
  (dict_lookup d K_temperature = None -> temperature req = None) /\
  (dict_lookup d K_top_p = None -> top_p req = None).
Proof.
  unfold validate, optional. intros H.
  repeat split; intros Hk; rewrite Hk in H; simplify_option_eq; done.
Qed.


(** ** The replies of the routes *)


(** C6, as amended: when the credential header is missing or empty, the
    models endpoint answers 401, and the chat-completions endpoint answers
    401 for every body that validates as a [ChatRequest]; no outbound call
    is made. *)
Theorem missing_credential_rejected
    (provider : OutboundCall -> call_result) (py_str : pyval -> str)
    (V : Coercions) (body : pyval) (request : Request) :
  credential_missing request ->
  get_v1_models provider request = (ErrorReply 401 DETAIL_MISSING_KEY, []) /\
  (forall req, validate V body = Some req ->
     post_chat_completions provider py_str V body request
       = (ErrorReply 401 DETAIL_MISSING_HEADER, [])).
Proof.
  intros Hkey. unfold get_v1_models, post_chat_completions.
  rewrite get_models_no_key by done. split; [done|].
  intros req ->. by rewrite chat_completions_no_key.
Qed.

Lemma missing_credential_rejected_witness :
  get_v1_models unreachable without_key
    = (ErrorReply 401 DETAIL_MISSING_KEY, []) /\
  post_chat_completions unreachable no_str exact_types
      minimal_body
      with_empty_key
    = (ErrorReply 401 DETAIL_MISSING_HEADER, []).
Proof.
  split.
  - exact (proj1 (missing_credential_rejected unreachable no_str exact_types
                    PNone without_key eq_refl)).
  - exact (proj2 (missing_credential_rejected unreachable no_str exact_types
                    minimal_body with_empty_key eq_refl) minimal eq_refl).
Defined.

(** C6, the claim as stated fails: the empty object is not a valid body, and
    without a credential the chat-completions endpoint answers it with 422,
    not 401. *)
Lemma invalid_body_without_key_is_422 :
  credential_missing without_key /\
  reply_status
    (post_chat_completions unreachable no_str exact_types (PDict [])
       without_key).1 = 422%Z.
Proof. split; reflexivity. Qed.

(** C7: in blocking mode, with a credential, when the upstream answers with
    a status for which [raise_for_status] does not raise and a body that is
    not JSON, the handler raises [HTTPException] 502 with the fixed detail:
    the caller receives status 502, no body of the upstream and no 200. *)
Theorem undecodable_success_is_502
    (provider : OutboundCall -> call_result) (py_str : pyval -> str)
    (V : Coercions) (body : pyval) (req : ChatRequest) (request : Request)
    (r : Response) (msg : str) :
  validate V body = Some req ->
  ~ credential_missing request ->
  req_stream req = false ->
  provider (chat_call (credential request) req) = Responds r ->
  is_error_status (status_code r) = false ->
  json_result r = JsonError msg ->
  chat_completions provider py_str req request []
    = (inl (HTTPException 502 DETAIL_INVALID_RESPONSE),
       [chat_call (credential request) req]) /\
  post_chat_completions provider py_str V body request
    = (ErrorReply 502 DETAIL_INVALID_RESPONSE,
       [chat_call (credential request) req]).
Proof.
  intros Hv Hkey Hstream Hcall Hstatus Hjson.
  unfold post_chat_completions. rewrite Hv.
  rewrite chat_completions_with_key by done. cbn zeta.
  by rewrite Hcall, Hstatus, Hstream, Hjson.
Qed.

Lemma undecodable_success_is_502_witness :
  reply_status
    (post_chat_completions (always not_json) no_str exact_types
       minimal_body
       with_key).1 = 502%Z.
Proof.
  pose proof (undecodable_success_is_502 (always not_json) no_str exact_types
    minimal_body
    minimal
    with_key not_json (lit "Expecting value: line 1 column 1 (char 0)")
    eq_refl ltac:(vm_compute; discriminate) eq_refl eq_refl eq_refl eq_refl)
    as [_ H].
  rewrite H. reflexivity.
Defined.

(** C8, as amended: with a credential, a failure of the upstream models
    call, be it a [RequestException] of the call or an error status of the
    answer, is absorbed: the caller receives 200 with the fallback
    catalog.  Without a credential the endpoint answers 401. *)
Theorem models_failures_absorbed
    (provider : OutboundCall -> call_result) (request : Request) :
  let call := models_call (credential request) in
  let reply := (get_v1_models provider request).1 in
  (~ credential_missing request ->
     (forall msg response, provider call = Fails msg response ->
        reply = Reply200 (JSONBody FALLBACK_MODELS)) /\
     (forall r, provider call = Responds r ->
        is_error_status (status_code r) = true ->
        reply = Reply200 (JSONBody FALLBACK_MODELS))) /\
  (credential_missing request -> reply = ErrorReply 401 DETAIL_MISSING_KEY).
Proof.
  intros call reply. subst call reply. split.
  - intros Hkey. unfold get_v1_models.
    rewrite get_models_with_key by done. cbn zeta. split.
    + by intros msg response ->.
    + by intros r -> ->.
  - intros Hkey. unfold get_v1_models. by rewrite get_models_no_key.
Qed.

Lemma models_failures_absorbed_witness :
  (get_v1_models unreachable with_key).1
    = Reply200 (JSONBody FALLBACK_MODELS).
Proof.
  pose proof (models_failures_absorbed unreachable with_key) as [H _].
  destruct (H ltac:(vm_compute; discriminate)) as [Hf _].
  exact (Hf (lit "Connection refused") None eq_refl).
Defined.

(** C8, the claim as stated fails: with a credential, an upstream that
    answers 200 with the body [1e999] makes the handler return the float
    infinity, which the serving layer cannot encode: the caller receives
    500, a failure status that is not 401. *)
Lemma unencodable_catalog_is_500 :
  ~ credential_missing with_key /\
  is_error_status (status_code models_infinite) = false /\
  reply_status (get_v1_models (always models_infinite) with_key).1 = 500%Z.
Proof. split; [vm_compute; discriminate|]. split; reflexivity. Qed.





(** * Further properties *)

(** ** The generator *)

Lemma run_loop_flag (lines : upstream) (c1 c2 : nat) :
  (run_loop false lines c1).1 = (run_loop true lines c2).1 /\
  (run_loop false lines c1).2 = c1.
Proof.
  induction lines as [|chunk rest IH|msg|name]; cbn [run_loop]; try done.
  destruct (relay_line chunk); done.
Qed.

Lemma step_flag (a : action) (frame : gen_state) (c1 c2 : nat) :
  (step a (mkGenerator false frame) c1).1.1
    = (step a (mkGenerator true frame) c2).1.1 /\
  gen_frame (step a (mkGenerator false frame) c1).1.2
    = gen_frame (step a (mkGenerator true frame) c2).1.2 /\
  gen_stream (step a (mkGenerator false frame) c1).1.2 = false /\
  gen_stream (step a (mkGenerator true frame) c2).1.2 = true /\
  (step a (mkGenerator false frame) c1).2 = c1.
Proof.
  destruct a; unfold step, anext, aclose; cbn [gen_stream gen_frame].
  - destruct frame as [lines|lines| |]; try done;
      destruct (run_loop_flag lines c1 c2) as [H1 H2];
      destruct (run_loop false lines c1) as [[r1 f1] c1'];
      destruct (run_loop true lines c2) as [[r2 f2] c2'];
      cbn in *; by simplify_eq.
  - destruct frame; done.
Qed.

(** X1: a generator built with [stream] false never calls
    [response.close()], whatever the upstream does and however the consumer
    reads or cancels; what it hands to the consumer is what the same
    generator built with [stream] true hands out. *)
Theorem no_close_without_stream_flag (acts : list action) (frame : gen_state)
    (closes closes' : nat) :
  closes_after acts (mkGenerator false frame) closes = closes /\
  (run acts (mkGenerator false frame) closes).1.1
    = (run acts (mkGenerator true frame) closes').1.1.
Proof.
  unfold closes_after. revert frame closes closes'.
  induction acts as [|a acts IH]; intros frame c1 c2; [done|].
  cbn [run].
  destruct (step_flag a frame c1 c2) as (Hout & Hframe & Hs1 & Hs2 & Hc).
  destruct (step a (mkGenerator false frame) c1) as [[o1 [s1 f1]] c1'].
  destruct (step a (mkGenerator true frame) c2) as [[o2 [s2 f2]] c2'].
  cbn in Hout, Hframe, Hs1, Hs2, Hc. subst.
  destruct (IH f2 c1 c2') as [IHc IHo].
  destruct (run acts (mkGenerator false f2) c1) as [[o1' g1'] c1''].
  destruct (run acts (mkGenerator true f2) c2') as [[o2' g2'] c2''].
  cbn in *. by subst.
Qed.

Lemma relay_line_framed (chunk : bytes) (event : str) :
  relay_line chunk = LineYield event -> framed event.
Proof.
  unfold relay_line, framed. destruct chunk; [done|].
  destruct (decode_utf8 _); [|done].
  destruct (startswith _ _); intros [= <-]; eauto.
Qed.

Lemma run_loop_framed (stream : bool) (lines : upstream) (closes : nat)
    (event : str) :
  (run_loop stream lines closes).1.1 = Yielded event -> framed event.
Proof.
  induction lines as [|chunk rest IH|msg|name]; cbn [run_loop]; try done.
  - destruct (relay_line chunk) eqn:Hline; [done| |done].
    intros [= <-]. by eapply relay_line_framed.
  - intros [= <-]. by eexists.
Qed.

Lemma step_framed (a : action) (g : generator) (closes : nat) :
  Forall framed (yielded_events (step a g closes).1.1).
Proof.
  destruct a; unfold step, anext, aclose.
  - destruct (gen_frame g) as [lines|lines| |]; cbn; try by constructor.
    all: pose proof (run_loop_framed (gen_stream g) lines closes) as H.
    all: destruct (run_loop (gen_stream g) lines closes) as [[[ev| |e] f] c].
    all: cbn in *; repeat constructor; by apply H.
  - destruct (gen_frame g); cbn; constructor.
Qed.

Lemma yielded_events_app (out out' : list resumed) :
  yielded_events (out ++ out') = yielded_events out ++ yielded_events out'.
Proof. unfold yielded_events. apply omap_app. Qed.

(** X2: every event the generator yields, whatever the upstream sends
    (data lines, lines without the prefix, a failure) and however the
    consumer acts, is [data: ] followed by a payload and two newlines. *)
Theorem every_event_is_framed (acts : list action) (g : generator)
    (closes : nat) :
  Forall framed (yielded_events (run acts g closes).1.1).
Proof.
  revert g closes. induction acts as [|a acts IH]; intros g closes.
  { constructor. }
  cbn [run]. pose proof (step_framed a g closes) as Hstep.
  destruct (step a g closes) as [[out g'] c'].
  specialize (IH g' c'). destruct (run acts g' c') as [[out' g''] c''].
  cbn in *. rewrite yielded_events_app. by apply Forall_app.
Qed.

(** ** The error event is one line of ASCII *)

Lemma hex_digit_printable (n : N) :
  n < 16 -> printable (hex_digit n) = true.
Proof.
  intros Hn. unfold hex_digit, printable.
  destruct (n <? 10) eqn:H; bool_hyps; apply andb_true_iff;
    split; apply N.leb_le; lia.
Qed.

Lemma land_15_lt (n : N) : N.land n 0xF < 16.
Proof.
  change 0xF with (N.ones 4). rewrite N.land_ones.
  by apply N.mod_lt.
Qed.

Lemma u_escape_printable (n : N) :
  Forall (fun c => printable c = true) (u_escape n).
Proof.
  unfold u_escape, hex4.
  repeat constructor; apply hex_digit_printable, land_15_lt.
Qed.

Lemma escape_char_printable (c : N) :
  Forall (fun c' => printable c' = true) (escape_char c).
Proof.
  unfold escape_char.
  repeat match goal with
  | |- context [if ?b then _ else _] => destruct b eqn:?
  end; try (repeat constructor; done).
  - apply u_escape_printable.
  - apply Forall_app. split; apply u_escape_printable.
Qed.

Lemma json_dumps_str_printable (s : str) :
  Forall (fun c => printable c = true) (json_dumps_str s).
Proof.
  unfold json_dumps_str. apply Forall_app. split; [by repeat constructor|].
  apply Forall_app. split; [|by repeat constructor].
  induction s as [|c s IH]; [constructor|].
  cbn [map concat]. apply Forall_app. split; [|done].
  apply escape_char_printable.
Qed.

(** X3: the payload of a synthesized error event consists of printable
    ASCII characters only, whatever the message of the exception: quotes,
    backslashes, control characters, line breaks and non-ASCII characters
    of the message are escaped, so the event stays one [data:] line. *)
Theorem error_payload_is_printable_ascii (msg : str) :
  Forall (fun c => printable c = true) (json_dumps_error msg).
Proof.
  unfold json_dumps_error.
  apply Forall_app; split; [by repeat constructor|].
  apply Forall_app; split; [apply json_dumps_str_printable|].
  apply Forall_app; split; [by repeat constructor|].
  apply Forall_app; split; [apply json_dumps_str_printable|].
  by repeat constructor.
Qed.

(** ** Exceptions that escape the generator *)

(** X4: when the upstream hands out a line that is not valid UTF-8 after
    the lines [chunks], the consumer receives the events of [chunks] and
    then [UnicodeDecodeError]; the lines after the bad one are not read, no
    error event is emitted, and the [finally] block has run (one close in
    streaming mode). *)
Theorem undecodable_line_escapes (response : Response) (chunks : list bytes)
    (bad : bytes) (rest : upstream) (stream : bool) (closes fuel : nat) :
  iter_lines response = script chunks (ULine bad rest) ->
  Forall decodes chunks ->
  decode_utf8 bad = None ->
  (length chunks < fuel)%nat ->
  drain fuel (stream_generator response stream) closes =
    (concat (map expected_events chunks), Some (Raised UnicodeDecodeError),
     mkGenerator stream GenClosed, finally_block stream closes).
Proof.
  intros Hlines Hdec Hbad Hfuel. unfold stream_generator. rewrite Hlines.
  pose proof (events_le_lines chunks) as Hle.
  replace fuel
    with (length (concat (map expected_events chunks))
          + S (fuel - length (concat (map expected_events chunks)) - 1))%nat
    by lia.
  rewrite Nat.add_succ_r, drain_created, <- Nat.add_succ_r.
  rewrite drain_script by done.
  cbn [drain anext gen_frame gen_stream run_loop].
  unfold relay_line. destruct bad as [|b bad]; [done|]. rewrite Hbad.
  cbn [prepend]. by rewrite app_nil_r.
Qed.

Lemma undecodable_line_escapes_witness :
  drain 4 (stream_generator broken_stream true) 0 =
    ([event_a1], Some (Raised UnicodeDecodeError),
     mkGenerator true GenClosed, 1%nat).
Proof.
  apply (undecodable_line_escapes broken_stream [line_a1] line_not_utf8
           (ULine line_a2 UEnd) true 0 4).
  - reflexivity.
  - repeat (constructor; [eexists; vm_compute; reflexivity|]). constructor.
  - reflexivity.
  - cbn. lia.
Defined.

(** X5: an exception of the line iterator that is not a
    [RequestException] is not turned into an error event: after the events
    of the lines read so far it reaches the consumer as it is, and the
    [finally] block has run. *)
Theorem other_exception_escapes (response : Response) (chunks : list bytes)
    (name : str) (stream : bool) (closes fuel : nat) :
  iter_lines response = script chunks (URaise name) ->
  Forall decodes chunks ->
  (length chunks < fuel)%nat ->
  drain fuel (stream_generator response stream) closes =
    (concat (map expected_events chunks), Some (Raised (OtherError name)),
     mkGenerator stream GenClosed, finally_block stream closes).
Proof.
  intros Hlines Hdec Hfuel. unfold stream_generator. rewrite Hlines.
  pose proof (events_le_lines chunks) as Hle.
  replace fuel
    with (length (concat (map expected_events chunks))
          + S (fuel - length (concat (map expected_events chunks)) - 1))%nat
    by lia.
  rewrite Nat.add_succ_r, drain_created, <- Nat.add_succ_r.
  rewrite drain_script by done.
  cbn [drain anext gen_frame gen_stream run_loop prepend].
  by rewrite app_nil_r.
Qed.

Lemma other_exception_escapes_witness :
  drain 4 (stream_generator
             (streamed (script [line_a1; line_a2] (URaise (lit "OSError"))))
             true) 0 =
    ([event_a1; event_a2], Some (Raised (OtherError (lit "OSError"))),
     mkGenerator true GenClosed, 1%nat).
Proof.
  apply (other_exception_escapes
           (streamed (script [line_a1; line_a2] (URaise (lit "OSError"))))
           [line_a1; line_a2] (lit "OSError") true 0 4).
  - reflexivity.
  - repeat (constructor; [eexists; vm_compute; reflexivity|]). constructor.
  - cbn. lia.
Defined.

(** ** After the end *)

Lemma step_closed (a : action) (stream : bool) (closes : nat) :
  step a (mkGenerator stream GenClosed) closes =
    (match a with Next => [StopAsyncIteration] | Cancel => [] end,
     mkGenerator stream GenClosed, closes).
Proof. by destruct a. Qed.

Lemma run_closed (acts : list action) (stream : bool) (closes : nat) :
  yielded_events (run acts (mkGenerator stream GenClosed) closes).1.1 = [] /\
  (run acts (mkGenerator stream GenClosed) closes).1.2
    = mkGenerator stream GenClosed /\
  (run acts (mkGenerator stream GenClosed) closes).2 = closes.
Proof.
  induction acts as [|a acts IH]; [done|].
  cbn [run]. rewrite step_closed.
  destruct (run acts _ closes) as [[out g] c]. cbn [fst snd] in *.
  destruct IH as (Hout & -> & ->). split; [|done].
  rewrite yielded_events_app, Hout. by destruct a.
Qed.

(** X6: once the consumer has cancelled, the generator yields no further
    event, reads no further line and calls [response.close()] no further
    time, whatever the consumer does afterwards. *)
Theorem nothing_after_cancel (acts : list action) (g : generator)
    (closes : nat) :
  let g' := (aclose g closes).1 in
  let closes' := (aclose g closes).2 in
  yielded_events (run acts g' closes').1.1 = [] /\
  frame_after acts g' closes' = GenClosed /\
  closes_after acts g' closes' = closes'.
Proof.
  intros g' closes'. unfold frame_after, closes_after.
  assert (Hg : g' = mkGenerator (gen_stream g) GenClosed).
  { subst g'. unfold aclose. destruct g as [s []]; done. }
  rewrite Hg. destruct (run_closed acts (gen_stream g) closes') as (? & -> & ?).
  done.
Qed.

(** ** No more events than lines *)

Lemma run_loop_events_left (stream : bool) (lines : upstream) (closes : nat)
    (event : str) (frame : gen_state) (closes' : nat) :
  run_loop stream lines closes = (Yielded event, frame, closes') ->
  (events_left (mkGenerator stream frame) <= upstream_lines lines)%nat.
Proof.
  revert event frame closes'.
  induction lines as [|chunk rest IH|msg|name]; intros event frame c';
    cbn [run_loop]; try done.
  - destruct (relay_line chunk); [|intros [= _ <- _]|done].
    + intros H. apply IH in H. cbn [upstream_lines]. lia.
    + cbn. lia.
  - intros [= _ <- _]. cbn. lia.
Qed.

Lemma anext_events_left (g : generator) (closes : nat) (event : str)
    (g' : generator) (closes' : nat) :
  anext g closes = (Yielded event, g', closes') ->
  (events_left g' < events_left g)%nat.
Proof.
  unfold anext, events_left at 2.
  destruct (gen_frame g) as [lines|lines| |]; try done.
  all: destruct (run_loop _ lines closes) as [[r f] c] eqn:Hr.
  all: intros [= -> <- <-]; apply run_loop_events_left in Hr; lia.
Qed.

(** X7: draining the generator yields at most one event for each line of
    the upstream and one more for its failure: nothing is emitted twice. *)
Theorem at_most_one_event_per_line (response : Response) (stream : bool)
    (closes fuel : nat) :
  (length (drain fuel (stream_generator response stream) closes).1.1.1
   <= S (upstream_lines (iter_lines response)))%nat.
Proof.
  change (S (upstream_lines (iter_lines response)))
    with (events_left (stream_generator response stream)).
  generalize (stream_generator response stream) as g. revert closes.
  induction fuel as [|fuel IH]; intros closes g; [cbn; lia|].
  cbn [drain]. destruct (anext g closes) as [[[event| |e] g'] c'] eqn:Ha;
    [|cbn; lia..].
  apply anext_events_left in Ha. specialize (IH c' g').
  destruct (drain fuel g' c') as [[[events r] g''] c'']. cbn in *. lia.
Qed.

(** ** The chat-completions handler on success *)

(** X8: in streaming mode, with a credential and an upstream status for
    which [raise_for_status] does not raise, the handler returns a
    [StreamingResponse] of media type [text/event-stream] over the
    generator of that response, not yet started; the body is not decoded
    as JSON, so a body that is not JSON gives no 502 here. *)
Theorem streaming_success_returns_generator
    (provider : OutboundCall -> call_result) (py_str : pyval -> str)
    (req : ChatRequest) (request : Request) (r : Response) :
  ~ credential_missing request ->
  req_stream req = true ->
  provider (chat_call (credential request) req) = Responds r ->
  is_error_status (status_code r) = false ->
  chat_completions provider py_str req request [] =
    (inr (StreamingResponse (stream_generator r true) (lit "text/event-stream")),
     [chat_call (credential request) req]).
Proof.
  intros Hkey Hstream Hcall Hstatus.
  rewrite chat_completions_with_key by done. cbn zeta.
  by rewrite Hcall, Hstatus, Hstream.
Qed.

Lemma streaming_success_returns_generator_witness :
  (chat_completions (always two_lines) no_str streaming with_key []).1 =
    inr (StreamingResponse (stream_generator two_lines true)
           (lit "text/event-stream")).
Proof.
  rewrite (streaming_success_returns_generator (always two_lines) no_str
             streaming with_key two_lines
             ltac:(vm_compute; discriminate) eq_refl eq_refl eq_refl).
  reflexivity.
Defined.

(** X9: in blocking mode, with a credential, the handler returns the
    decoded JSON body of the upstream as it is, for every upstream status
    for which [raise_for_status] does not raise (201, 204, 3xx included);
    the upstream's status is no part of what it returns. *)
Theorem blocking_success_passes_json
    (provider : OutboundCall -> call_result) (py_str : pyval -> str)
    (req : ChatRequest) (request : Request) (r : Response) (v : pyval) :
  ~ credential_missing request ->
  req_stream req = false ->
  provider (chat_call (credential request) req) = Responds r ->
  is_error_status (status_code r) = false ->
  json_result r = JsonValue v ->
  chat_completions provider py_str req request [] =
    (inr (JSONBody v), [chat_call (credential request) req]).
Proof.
  intros Hkey Hstream Hcall Hstatus Hjson.
  rewrite chat_completions_with_key by done. cbn zeta.
  by rewrite Hcall, Hstatus, Hstream, Hjson.
Qed.

Lemma blocking_success_passes_json_witness :
  (chat_completions (always created) no_str minimal with_key []).1
    = inr (JSONBody (PDict [])).
Proof.
  rewrite (blocking_success_passes_json (always created) no_str minimal
             with_key created (PDict [])
             ltac:(vm_compute; discriminate) eq_refl eq_refl eq_refl eq_refl).
  reflexivity.
Defined.

(** ** The chat-completions handler on an upstream error *)

(** X10: when the upstream answers with an error status and a body that is
    JSON but not an object (an array, a string, a number, null), the
    handler of the [RequestException] itself fails with [AttributeError]:
    the caller receives 500, not the upstream's status. *)
Theorem error_body_not_object_is_500
    (provider : OutboundCall -> call_result) (py_str : pyval -> str)
    (req : ChatRequest) (request : Request) (r : Response) (v : pyval) :
  ~ credential_missing request ->
  provider (chat_call (credential request) req) = Responds r ->
  is_error_status (status_code r) = true ->
  json_result r = JsonValue v ->
  is_dict v = false ->
  respond (chat_completions provider py_str req request []).1
    = InternalError500 AttributeError.
Proof.
  intros Hkey Hcall Hstatus Hjson Hv.
  rewrite chat_completions_with_key by done. cbn zeta.
  rewrite Hcall, Hstatus, on_request_exception_cases, Hjson.
  by destruct v.
Qed.

Lemma error_body_not_object_is_500_witness :
  reply_status
    (respond (chat_completions (always error_array) no_str minimal
                with_key []).1) = 500%Z.
Proof.
  rewrite (error_body_not_object_is_500 (always error_array) no_str minimal
             with_key error_array (PList [])
             ltac:(vm_compute; discriminate) eq_refl eq_refl eq_refl eq_refl).
  reflexivity.
Defined.

Lemma dict_get_default (d : list (str * pyval)) (key : str) (default : pyval) :
  dict_lookup d key = None -> dict_get d key default = default.
Proof.
  induction d as [|[k w] d IH]; [done|]. cbn [dict_lookup dict_get].
  by case_decide.
Qed.

(** X11: when the upstream answers with an error status and a JSON object
    that has no [error] field, the detail is the prefix followed by the
    whole body text, however long: the cut at 500 characters applies only
    to a body that is not JSON. *)
Theorem error_object_without_field_gives_text
    (provider : OutboundCall -> call_result) (py_str : pyval -> str)
    (req : ChatRequest) (request : Request) (r : Response)
    (d : list (str * pyval)) :
  ~ credential_missing request ->
  provider (chat_call (credential request) req) = Responds r ->
  is_error_status (status_code r) = true ->
  json_result r = JsonValue (PDict d) ->
  dict_lookup d (lit "error") = None ->
  (chat_completions provider py_str req request []).1
    = inl (HTTPException (status_code r) (DETAIL_PREFIX ++ text r)).
Proof.
  intros Hkey Hcall Hstatus Hjson Hd.
  rewrite chat_completions_with_key by done. cbn zeta.
  rewrite Hcall, Hstatus, on_request_exception_cases, Hjson.
  by rewrite (dict_get_default _ _ _ Hd).
Qed.

Lemma error_object_without_field_gives_text_witness :
  (chat_completions (always error_without_field) no_str minimal
     with_key []).1
    = inl (HTTPException 400 (DETAIL_PREFIX ++ lit "{}")).
Proof.
  exact (error_object_without_field_gives_text (always error_without_field)
           no_str minimal with_key error_without_field []
           ltac:(vm_compute; discriminate) eq_refl eq_refl eq_refl eq_refl).
Defined.

(** X12: when the upstream answers with an error status and a body that is
    not JSON, the detail is at most 500 characters longer than the prefix,
    and it holds the whole body text when that has at most 500
    characters. *)
Theorem error_text_is_cut_at_500
    (provider : OutboundCall -> call_result) (py_str : pyval -> str)
    (req : ChatRequest) (request : Request) (r : Response) (msg : str) :
  ~ credential_missing request ->
  provider (chat_call (credential request) req) = Responds r ->
  is_error_status (status_code r) = true ->
  json_result r = JsonError msg ->
  exists detail,
    (chat_completions provider py_str req request []).1
      = inl (HTTPException (status_code r) detail) /\
    (length detail <= length DETAIL_PREFIX + 500)%nat /\
    ((length (text r) <= 500)%nat -> detail = DETAIL_PREFIX ++ text r).
Proof.
  intros Hkey Hcall Hstatus Hjson.
  exists (DETAIL_PREFIX ++ slice_to 500 (text r)).
  rewrite chat_completions_with_key by done. cbn zeta.
  rewrite Hcall, Hstatus, on_request_exception_cases, Hjson.
  split; [done|]. unfold slice_to. split.
  - rewrite length_app, length_take. lia.
  - intros Hlen. by rewrite take_ge.
Qed.

Lemma error_text_is_cut_at_500_witness :
  exists detail,
    (chat_completions (always error_page) no_str minimal with_key []).1
      = inl (HTTPException 503 detail) /\
    (length detail <= length DETAIL_PREFIX + 500)%nat /\
    ((length (text error_page) <= 500)%nat ->
     detail = DETAIL_PREFIX ++ text error_page).
Proof.
  exact (error_text_is_cut_at_500 (always error_page) no_str minimal with_key
           error_page (lit "Expecting value: line 1 column 1 (char 0)")
           ltac:(vm_compute; discriminate) eq_refl eq_refl eq_refl).
Defined.

(** ** The statuses of the chat-completions route *)

Lemma respond_json_status (v : pyval) :
  reply_status (respond (inr (JSONBody v))) = 200%Z \/
  reply_status (respond (inr (JSONBody v))) = 500%Z.
Proof. unfold respond. destruct (encode_failure v); auto. Qed.

(** X13: for a request whose body has been parsed as JSON, the status of a
    reply of the chat-completions route is 200, 401, 422, 500, 502 or 504,
    or else the status of the response attached to the failure of the
    upstream call; no other status is produced. *)
Theorem chat_reply_statuses
    (provider : OutboundCall -> call_result) (py_str : pyval -> str)
    (V : Coercions) (body : pyval) (request : Request) :
  let status :=
    reply_status (post_chat_completions provider py_str V body request).1 in
  status ∈ OWN_STATUSES \/
  exists req r,
    validate V body = Some req /\
    failure_response (provider (chat_call (credential request) req)) = Some r /\
    status = status_code r.
Proof.
  cbn zeta. unfold post_chat_completions, OWN_STATUSES.
  destruct (validate V body) as [req|] eqn:Hv; [|left; set_solver].
  destruct (decide (credential request = [])) as [Hk|Hk].
  { rewrite chat_completions_no_key by done. left. cbn. set_solver. }
  rewrite chat_completions_with_key by done. cbn zeta.
  destruct (provider _) as [r|msg response] eqn:Hcall.
  - destruct (is_error_status (status_code r)) eqn:Hs.
    + rewrite on_request_exception_cases.
      destruct (json_result r) as [v| |].
      * destruct v; try (left; cbn; set_solver).
        right. exists req, r. rewrite Hcall. cbn. by rewrite Hs.
      * right. exists req, r. rewrite Hcall. cbn. by rewrite Hs.
      * left. cbn. set_solver.
    + destruct (req_stream req); [left; cbn; set_solver|].
      destruct (json_result r) as [v| |]; [|left; cbn; set_solver..].
      left. cbn [fst]. destruct (respond_json_status v) as [-> | ->]; set_solver.
  - rewrite on_request_exception_cases.
    destruct response as [r|]; [|left; cbn; set_solver].
    destruct (json_result r) as [v| |].
    + destruct v; try (left; cbn; set_solver).
      right. exists req, r. by rewrite Hcall.
    + right. exists req, r. by rewrite Hcall.
    + left. cbn. set_solver.
Qed.

(** ** One call, no retry *)

(** X14: with a credential, the chat-completions handler adds exactly one
    outbound call to the calls made so far, whatever the upstream answers
    (success, error status, transport failure): a POST to the
    chat-completions URL with timeout 200, streamed iff the request asks
    for streaming, with the credential as bearer token and an [Accept]
    header that follows the streaming flag. *)
Theorem chat_makes_one_call
    (provider : OutboundCall -> call_result) (py_str : pyval -> str)
    (req : ChatRequest) (request : Request) (log : list OutboundCall) :
  ~ credential_missing request ->
  exists call,
    (chat_completions provider py_str req request log).2 = log ++ [call] /\
    call_method call = POST /\
    call_url call = lit "https://api.x.ai/v1/chat/completions" /\
    call_timeout call = 200%Z /\
    call_stream call = req_stream req /\
    call_headers call !! lit "Authorization"
      = Some (lit "Bearer " ++ credential request) /\
    call_headers call !! lit "Accept"
      = Some (if req_stream req then lit "text/event-stream"
              else lit "application/json").
Proof.
  intros Hkey. exists (chat_call (credential request) req). split.
  - rewrite chat_completions_with_key by done. cbn zeta.
    destruct (provider _) as [r|msg response].
    + destruct (is_error_status (status_code r)).
      * rewrite on_request_exception_cases.
        destruct (json_result r) as [[]| |]; done.
      * destruct (req_stream req); [done|]. by destruct (json_result r).
    + rewrite on_request_exception_cases.
      destruct response as [r|]; [|done].
      destruct (json_result r) as [[]| |]; done.
  - repeat split.
    all: unfold chat_call, chat_headers; cbn [call_headers].
    all: first [ by rewrite lookup_insert_eq
               | by rewrite !lookup_insert_ne, lookup_insert_eq
                   by keys_differ ].
Qed.

Lemma chat_makes_one_call_witness :
  exists call,
    (chat_completions unreachable no_str minimal with_key []).2 = [] ++ [call] /\
    call_method call = POST /\
    call_url call = lit "https://api.x.ai/v1/chat/completions" /\
    call_timeout call = 200%Z /\
    call_stream call = req_stream minimal /\
    call_headers call !! lit "Authorization"
      = Some (lit "Bearer " ++ credential with_key) /\
    call_headers call !! lit "Accept"
      = Some (if req_stream minimal then lit "text/event-stream"
              else lit "application/json").
Proof.
  exact (chat_makes_one_call unreachable no_str minimal with_key []
           ltac:(vm_compute; discriminate)).
Defined.

(** X15: with a credential, the models handler adds exactly one outbound
    call to the calls made so far, whatever the upstream answers: a GET of
    the models URL with timeout 10, without a body and not streamed, with
    the credential as bearer token. *)
Theorem models_makes_one_call
    (provider : OutboundCall -> call_result) (request : Request)
    (log : list OutboundCall) :
  ~ credential_missing request ->
  exists call,
    (get_models provider request log).2 = log ++ [call] /\
    call_method call = GET /\
    call_url call = lit "https://api.x.ai/v1/models" /\
    call_timeout call = 10%Z /\
    call_stream call = false /\
    call_json call = None /\
    call_headers call !! lit "Authorization"
      = Some (lit "Bearer " ++ credential request).
Proof.
  intros Hkey. exists (models_call (credential request)). split.
  - rewrite get_models_with_key by done. cbn zeta.
    destruct (provider _) as [r|msg response]; [|done].
    destruct (is_error_status (status_code r)); [done|].
    by destruct (json_result r).
  - repeat split.
    all: unfold models_call, models_headers; cbn [call_headers].
    all: by rewrite lookup_insert_ne, lookup_insert_eq by keys_differ.
Qed.

Lemma models_makes_one_call_witness :
  exists call,
    (get_models (always models_ok) with_key []).2 = [] ++ [call] /\
    call_method call = GET /\
    call_url call = lit "https://api.x.ai/v1/models" /\
    call_timeout call = 10%Z /\
    call_stream call = false /\
    call_json call = None /\
    call_headers call !! lit "Authorization"
      = Some (lit "Bearer " ++ credential with_key).
Proof.
  exact (models_makes_one_call (always models_ok) with_key []
           ltac:(vm_compute; discriminate)).
Defined.

(** ** From the body to the forwarded payload *)

Lemma optional_set {A} (conv : pyval -> option A) (d : list (str * pyval))
    (key : str) (field : option A) :
  optional conv d key = Some field ->
  (is_Some field <-> is_Some (dict_lookup d key)).
Proof.
  unfold optional. destruct (dict_lookup d key) as [v|].
  - destruct (conv v); intros [= <-]. split; eauto.
  - intros [= <-]. split; intros [? ?]; done.
Qed.

Lemma validate_fields_set (V : Coercions) (d : list (str * pyval))
    (req : ChatRequest) :
  validate V (PDict d) = Some req ->
  is_Some (dict_lookup d K_messages) /\
  is_Some (dict_lookup d K_model) /\
  (is_Some (max_tokens req) <-> is_Some (dict_lookup d K_max_tokens)) /\
  (is_Some (temperature req) <-> is_Some (dict_lookup d K_temperature)) /\
  (is_Some (top_p req) <-> is_Some (dict_lookup d K_top_p)) /\
  (is_Some (stream req) <-> is_Some (dict_lookup d K_stream)).
Proof.
  unfold validate, required. intros H.
  destruct (dict_lookup d K_messages) as [v1|]; [|done]. cbn in H.
  destruct (to_dict_list V v1) as [ms|]; [|done]. cbn in H.
  destruct (dict_lookup d K_model) as [v2|]; [|done]. cbn in H.
  destruct (to_str V v2) as [md|]; [|done]. cbn in H.
  destruct (optional _ d K_max_tokens) as [mt|] eqn:Hmt; [|done]. cbn in H.
  destruct (optional _ d K_temperature) as [te|] eqn:Hte; [|done]. cbn in H.
  destruct (optional _ d K_top_p) as [tp|] eqn:Htp; [|done]. cbn in H.
  destruct (optional _ d K_stream) as [st|] eqn:Hst; [|done]. cbn in H.
  destruct (optional _ d K_presence_penalty) as [pp|]; [|done]. cbn in H.
  destruct (optional _ d K_frequency_penalty) as [fp|]; [|done]. cbn in H.
  injection H as <-. cbn.
  apply optional_set in Hmt, Hte, Htp, Hst. eauto 10.
Qed.

(** X16: for a body that validates, the keys of the forwarded payload are
    exactly the allow-listed names that are keys of the body: no default is
    added for a field the body leaves out, and no other key of the body is
    forwarded. *)
Theorem forwarded_keys_are_body_keys (V : Coercions)
    (d : list (str * pyval)) (req : ChatRequest) (k : str) :
  validate V (PDict d) = Some req ->
  (k ∈ dom (filtered_payload req) <->
   k ∈ ALLOWED /\ is_Some (dict_lookup d k)).
Proof.
  intros Hv.
  destruct (validate_fields_set V d req Hv)
    as (Hms & Hmd & Hmt & Hte & Htp & Hst).
  destruct (lookup_dict_exclude_unset req)
    as (Lms & Lmd & Lmt & Lte & Ltp & Lst & _ & _).
  unfold filtered_payload.
  rewrite elem_of_dom, lookup_allow_list_filter.
  case_decide as Hk; [|split; [by intros [? ?]|naive_solver]].
  split; [intros Hin; split; [done|]|intros [_ Hin]].
  all: unfold ALLOWED in Hk;
    repeat (apply elem_of_cons in Hk as [->|Hk]); [..|by apply elem_of_nil in Hk].
  all: rewrite ?Lms, ?Lmd, ?Lmt, ?Lte, ?Ltp, ?Lst in *.
  all: rewrite ?fmap_is_Some in *; naive_solver.
Qed.

Lemma forwarded_keys_are_body_keys_witness :
  K_max_tokens ∈ dom (filtered_payload request_with_null) <->
  K_max_tokens ∈ ALLOWED /\
  is_Some (dict_lookup fields_with_null K_max_tokens).
Proof.
  exact (forwarded_keys_are_body_keys exact_types fields_with_null
           request_with_null K_max_tokens eq_refl).
Defined.



(** ** The models handler on success *)

(** X18: with a credential, when the upstream answers the models call
    with a status for which [raise_for_status] does not raise and a JSON
    body, the handler returns that decoded body, unchanged; the fallback
    catalog is not used. *)
Theorem models_success_passes_json
    (provider : OutboundCall -> call_result) (request : Request)
    (r : Response) (v : pyval) :
  ~ credential_missing request ->
  provider (models_call (credential request)) = Responds r ->
  is_error_status (status_code r) = false ->
  json_result r = JsonValue v ->
  get_models provider request []
    = (inr (JSONBody v), [models_call (credential request)]).
Proof.
  intros Hkey Hcall Hstatus Hjson.
  rewrite get_models_with_key by done. cbn zeta.
  by rewrite Hcall, Hstatus, Hjson.
Qed.

Lemma models_success_passes_json_witness :
  (get_models (always models_ok) with_key []).1 = inr (JSONBody catalog).
Proof.
  rewrite (models_success_passes_json (always models_ok) with_key models_ok
             catalog ltac:(vm_compute; discriminate) eq_refl eq_refl eq_refl).
  reflexivity.
Defined.

(** X19: with a credential, when the upstream answers the models call with
    a status for which [raise_for_status] does not raise but a body that is
    not JSON, the caller receives 200 with the fallback catalog: the
    [JSONDecodeError] of [response.json()] is requests' own, a
    [RequestException], and line 120 catches it.  (The chat-completions
    handler answers 502 in the same situation.) *)
Theorem models_undecodable_gives_fallback
    (provider : OutboundCall -> call_result) (request : Request)
    (r : Response) (msg : str) :
  ~ credential_missing request ->
  provider (models_call (credential request)) = Responds r ->
  is_error_status (status_code r) = false ->
  json_result r = JsonError msg ->
  get_v1_models provider request
    = (Reply200 (JSONBody FALLBACK_MODELS), [models_call (credential request)]).
Proof.
  intros Hkey Hcall Hstatus Hjson. unfold get_v1_models.
  rewrite get_models_with_key by done. cbn zeta.
  by rewrite Hcall, Hstatus, Hjson.
Qed.

Lemma models_undecodable_gives_fallback_witness :
  (get_v1_models (always models_not_json) with_key).1
    = Reply200 (JSONBody FALLBACK_MODELS).
Proof.
  rewrite (models_undecodable_gives_fallback (always models_not_json) with_key
             models_not_json
             (lit "Expecting value: line 1 column 1 (char 0)")
             ltac:(vm_compute; discriminate) eq_refl eq_refl eq_refl).
  reflexivity.
Defined.

(** ** The streaming route, end to end *)

(** X20: a streaming request with a credential, answered by the upstream
    with a non-error status and lines that are valid UTF-8, gives the
    caller a 200 event stream whose events, read to the end, are those of
    the lines in order; a [RequestException] while the lines are read
    arrives as one more event inside that stream, not as an HTTP error; in
    both cases the connection has then been closed once. *)
Theorem streaming_route_relays_lines
    (provider : OutboundCall -> call_result) (py_str : pyval -> str)
    (V : Coercions) (body : pyval) (req : ChatRequest) (request : Request)
    (r : Response) (chunks : list bytes) (fuel : nat) :
  validate V body = Some req ->
  ~ credential_missing request ->
  req_stream req = true ->
  provider (chat_call (credential request) req) = Responds r ->
  is_error_status (status_code r) = false ->
  Forall decodes chunks ->
  (S (length chunks) < fuel)%nat ->
  exists g,
    (post_chat_completions provider py_str V body request).1
      = Reply200 (StreamingResponse g (lit "text/event-stream")) /\
    (iter_lines r = script chunks UEnd ->
     drain fuel g 0 =
       (concat (map expected_events chunks), Some StopAsyncIteration,
        mkGenerator true GenClosed, 1%nat)) /\
    (forall msg, iter_lines r = script chunks (UFail msg) ->
     drain fuel g 0 =
       (concat (map expected_events chunks)
          ++ [sse_data (json_dumps_error msg)],
        Some StopAsyncIteration, mkGenerator true GenClosed, 1%nat)).
Proof.
  intros Hv Hkey Hstream Hcall Hstatus Hdec Hfuel.
  exists (stream_generator r true). split; [|split].
  - unfold post_chat_completions. rewrite Hv.
    rewrite chat_completions_with_key by done. cbn zeta.
    by rewrite Hcall, Hstatus, Hstream.
  - intros Hlines. unfold stream_generator. rewrite Hlines.
    apply (drain_until_end chunks true 0 fuel); [done|lia].
  - intros msg Hlines. unfold stream_generator. rewrite Hlines.
    by apply (drain_until_failure chunks msg true 0 fuel).
Qed.

Lemma streaming_route_relays_lines_witness :
  exists g,
    (post_chat_completions (always two_lines) no_str exact_types
       (PDict [(K_messages, PList []); (K_model, PStr (lit "grok-4-0709"));
               (K_stream, PBool true)]) with_key).1
      = Reply200 (StreamingResponse g (lit "text/event-stream")) /\
    drain 4 g 0 =
      ([event_a1; event_a2], Some StopAsyncIteration,
       mkGenerator true GenClosed, 1%nat).
Proof.
  destruct (streaming_route_relays_lines (always two_lines) no_str exact_types
    (PDict [(K_messages, PList []); (K_model, PStr (lit "grok-4-0709"));
            (K_stream, PBool true)])
    streaming with_key two_lines [line_a1; line_a2] 4
    eq_refl ltac:(vm_compute; discriminate) eq_refl eq_refl eq_refl
    ltac:(repeat (constructor; [eexists; vm_compute; reflexivity|]);
          constructor)
    ltac:(cbn; lia)) as (g & Hg & Hend & _).
  exists g. split; [exact Hg|]. exact (Hend eq_refl).
Defined.

(** ** A success the serving layer cannot encode *)





